(** * simple-proxy-id: a fixed-target reverse proxy and its plugins

    A shallow embedding of the CORS plugin ([src/plugins/cors.js]) and of
    the forwarding core the repository's tests and documentation describe
    (path rewriting, target fixation, the upstream error path and the
    attack detector), followed by the properties proved about them. *)

From Stdlib Require Import ZArith String Ascii List Lia.
From stdpp Require Import base option gmap strings list pretty.

Set Default Proof Using "Type".
Set Warnings "-register-all".

(** ** Completions: a call either returns a value or throws *)

Inductive Completion (A : Type) : Type :=
| Returns (a : A)
| Throws (msg : string).
Arguments Returns {A} a.
Arguments Throws {A} msg.

#[global] Instance Completion_ret : MRet Completion := fun A a => Returns a.
#[global] Instance Completion_bind : MBind Completion :=
  fun A B f c => match c with Returns a => f a | Throws m => Throws m end.

(** ** JavaScript values, as far as the option objects need them *)

Module Js.

(** The integers JavaScript holds exactly and prints as plain decimals. *)
Definition safeInteger (n : Z) : bool :=
  (Z.abs n <=? 9007199254740991)%Z.

(** A number is a safe integer, given by its value; [JNaN] stands for
    NaN. A function value is called with one string; [src] is its source
    text, which is what [toString] yields for it. [JObj] is a plain
    object. Strings hold code units up to 255. *)
Inductive JsVal : Type :=
| JUndefined
| JNull
| JBool (b : bool)
| JNum (n : Z) (safe : safeInteger n = true)
| JNaN
| JStr (s : string)
| JArr (elems : list JsVal)
| JObj
| JFun (src : string) (call : string -> Completion JsVal).

(** ToBoolean. *)
Definition truthy (v : JsVal) : bool :=
  match v with
  | JUndefined | JNull | JNaN => false
  | JBool b => b
  | JNum n _ => negb (n =? 0)%Z
  | JStr s => negb (String.eqb s "")
  | JArr _ | JObj | JFun _ _ => true
  end.

(** [a || b]. *)
Definition or (a b : JsVal) : JsVal := if truthy a then a else b.

(** [typeof v]. *)
Definition typeof (v : JsVal) : string :=
  match v with
  | JUndefined => "undefined"
  | JNull | JArr _ | JObj => "object"
  | JBool _ => "boolean"
  | JNum _ _ | JNaN => "number"
  | JStr _ => "string"
  | JFun _ _ => "function"
  end.

(** [Array.isArray(v)]. *)
Definition isArray (v : JsVal) : bool :=
  match v with JArr _ => true | _ => false end.

(** [v.length] of an array, as a number. *)
Definition arrayLength (v : JsVal) : Z :=
  match v with JArr l => Z.of_nat (length l) | _ => 0%Z end.

(** [v === s] and SameValueZero of [v] and [s], for a string [s]: only an
    equal string is equal to a string. *)
Definition strictEqStr (v : JsVal) (s : string) : bool :=
  match v with JStr t => String.eqb t s | _ => false end.

(** [v(arg)] for a value whose [typeof] is ["function"]. *)
Definition apply (v : JsVal) (arg : string) : Completion JsVal :=
  match v with
  | JFun _ call => call arg
  | _ => Throws "TypeError: not a function"
  end.

(** ToString, and [Array.prototype.join]: an element that is [undefined]
    or [null] contributes the empty string, any other element its
    ToString; an array's own ToString is its join with a comma. *)
Fixpoint toString (v : JsVal) : string :=
  match v with
  | JUndefined => "undefined"
  | JNull => "null"
  | JBool true => "true"
  | JBool false => "false"
  | JNum n _ => pretty n
  | JNaN => "NaN"
  | JStr s => s
  | JArr l =>
      String.concat ","
        (List.map (fun e => match e with
                            | JUndefined | JNull => ""
                            | _ => toString e
                            end) l)
  | JObj => "[object Object]"
  | JFun src _ => src
  end.

Definition joinElem (e : JsVal) : string :=
  match e with
  | JUndefined | JNull => ""
  | _ => toString e
  end.

Definition join (v : JsVal) (sep : string) : string :=
  match v with
  | JArr l => String.concat sep (List.map joinElem l)
  | _ => ""
  end.

(** [new Set(arr)] and [set.has(s)] for a string [s]. *)
Definition newSet (v : JsVal) : list JsVal :=
  match v with JArr l => l | _ => [] end.

Definition setHas (set : list JsVal) (s : string) : bool :=
  existsb (fun e => strictEqStr e s) set.

End Js.

(** ** The HTTP request and response objects a handler receives *)

Module Http.

Definition lowerAscii (c : ascii) : ascii :=
  let n := nat_of_ascii c in
  if ((65 <=? n) && (n <=? 90))%nat then ascii_of_nat (n + 32) else c.

Fixpoint toLowerCase (s : string) : string :=
  match s with
  | EmptyString => EmptyString
  | String c r => String (lowerAscii c) (toLowerCase r)
  end.

Fixpoint allChars (p : ascii -> bool) (s : string) : bool :=
  match s with
  | EmptyString => true
  | String c r => p c && allChars p r
  end.

(** The characters of an HTTP token, which a header name is made of. *)
Definition tokenChar (c : ascii) : bool :=
  let n := nat_of_ascii c in
  ((48 <=? n) && (n <=? 57)) || ((65 <=? n) && (n <=? 90))
  || ((94 <=? n) && (n <=? 122))
  || (n =? 33) || ((35 <=? n) && (n <=? 39)) || (n =? 42) || (n =? 43)
  || (n =? 45) || (n =? 46) || (n =? 124) || (n =? 126).

(** Node's check of a header name: a non-empty token. *)
Definition validHeaderName (name : string) : bool :=
  negb (String.eqb name "") && allChars tokenChar name.

(** The characters a header value may hold: the tab, the printable ASCII
    characters and the code units from 128 to 255. *)
Definition headerChar (c : ascii) : bool :=
  let n := nat_of_ascii c in
  (n =? 9) || ((32 <=? n) && (n <=? 126)) || (128 <=? n).

(** Node's check of a header value. *)
Definition validHeaderValue (value : string) : bool :=
  allChars headerChar value.

(** [req.method], [req.url], [req.headers] (keyed by lower-cased name, as
    Node delivers them) and the body. *)
Record Req : Type := mkReq {
  method : string;
  url : string;
  reqHeaders : gmap string string;
  reqBody : string
}.

(** The response: status code, the headers set so far (keyed by
    lower-cased name), whether the head has been written, whether the
    response has been ended, and the body bytes written. *)
Record Res : Type := mkRes {
  statusCode : Z;
  resHeaders : gmap string string;
  headersSent : bool;
  finished : bool;
  resBody : string
}.

(** A response nothing has touched yet. *)
Definition freshRes : Res :=
  {| statusCode := 200; resHeaders := ∅; headersSent := false;
     finished := false; resBody := "" |}.

(** The response with one more header stored. *)
Definition putHeader (name value : string) (res : Res) : Res :=
  {| statusCode := statusCode res;
     resHeaders := <[toLowerCase name := value]> (resHeaders res);
     headersSent := headersSent res;
     finished := finished res;
     resBody := resBody res |}.

(** [res.setHeader(name, value)] of Node: it throws once the head has
    been written, on a name that is no token and on a value with an
    illegal character (errors are named by their code); otherwise the
    header is stored. *)
Definition setHeader (name value : string) (res : Res) : Completion Res :=
  if headersSent res then Throws "ERR_HTTP_HEADERS_SENT"
  else if negb (validHeaderName name) then Throws "ERR_INVALID_HTTP_TOKEN"
  else if negb (validHeaderValue value) then Throws "ERR_INVALID_CHAR"
  else Returns (putHeader name value res).

(** The headers object of [writeHead], entry by entry. *)
Fixpoint setHeaders (hs : list (string * string)) (res : Res)
  : Completion Res :=
  match hs with
  | [] => Returns res
  | kv :: rest => res ← setHeader (fst kv) (snd kv) res; setHeaders rest res
  end.

(** The response with its head written under [status]. *)
Definition sendHead (status : Z) (res : Res) : Res :=
  {| statusCode := status;
     resHeaders := resHeaders res;
     headersSent := true;
     finished := finished res;
     resBody := resBody res |}.

(** [res.writeHead(status, headers)] of Node: it throws once the head
    has been written, on a status outside 100..999 and on a header it
    would refuse to set; otherwise it sets the status, merges [headers]
    over the ones already set and writes the head. *)
Definition writeHead (status : Z) (hs : list (string * string)) (res : Res)
  : Completion Res :=
  if headersSent res then Throws "ERR_HTTP_HEADERS_SENT"
  else if ((status <? 100) || (999 <? status))%Z then
    Throws "ERR_HTTP_INVALID_STATUS_CODE"
  else res ← setHeaders hs res; Returns (sendHead status res).

(** [res.end()] with no data: nothing is added to the body. *)
Definition end_ (res : Res) : Res :=
  {| statusCode := statusCode res;
     resHeaders := resHeaders res;
     headersSent := true;
     finished := true;
     resBody := resBody res |}.

(** The continuation [next] runs the rest of the chain on the response. *)
Definition Next : Type := Res -> Completion Res.
Definition Middleware : Type := Req -> Res -> Next -> Completion Res.

End Http.

(** ** The CORS plugin ([src/plugins/cors.js]) *)

Module Cors.
Import Js Http.

(** The option object and the normalised [config] object have the same
    three properties; an absent property reads as [JUndefined]. *)
Record Options : Type := mkOptions {
  origin : JsVal;
  methods : JsVal;
  allowedHeaders : JsVal
}.

(** [createCors()] : the default parameter [options = {}]. *)
Definition noOptions : Options :=
  {| origin := JUndefined; methods := JUndefined; allowedHeaders := JUndefined |}.

Definition defaultMethods : JsVal :=
  JArr [JStr "GET"; JStr "POST"; JStr "PUT"; JStr "DELETE"; JStr "PATCH"; JStr "HEAD"].

Definition defaultAllowedHeaders : JsVal :=
  JArr [JStr "Content-Type"; JStr "Authorization"].

(** [const config = { origin: options.origin || '*', ... }]. *)
Definition normalize (options : Options) : Options :=
  {| origin := Js.or (origin options) (JStr "*");
     methods := Js.or (methods options) defaultMethods;
     allowedHeaders := Js.or (allowedHeaders options) defaultAllowedHeaders |}.

Definition dquote : string := String (ascii_of_nat 34) EmptyString.

Definition originTypeError : string :=
  "origin must be a string, array, function, or " +:+ dquote +:+ "*" +:+ dquote.

(** The origin validator, built once from [config.origin]. *)
Definition makeIsOriginAllowed (config : Options)
  : Completion (string -> Completion JsVal) :=
  if strictEqStr (origin config) "*" then
    Returns (fun _ => Returns (JBool true))
  else if String.eqb (typeof (origin config)) "function" then
    Returns (Js.apply (origin config))
  else if String.eqb (typeof (origin config)) "string" then
    Returns (fun requestOrigin =>
               Returns (JBool (strictEqStr (origin config) requestOrigin)))
  else if isArray (origin config) then
    let allowedOrigins := newSet (origin config) in
    Returns (fun requestOrigin =>
               Returns (JBool (setHas allowedOrigins requestOrigin)))
  else Throws originTypeError.

(** [!requestOrigin] for [req.headers.origin]: absent or empty. *)
Definition noOrigin (requestOrigin : option string) : bool :=
  match requestOrigin with
  | None => true
  | Some s => String.eqb s ""
  end.

(** The middleware [createCors] returns, closed over [config],
    [isOriginAllowed] and the two pre-computed header values. *)
Definition middleware (config : Options)
    (isOriginAllowed : string -> Completion JsVal)
    (methodsHeader headersHeader : string) : Middleware :=
  fun req res next =>
    let requestOrigin := reqHeaders req !! "origin" in
    if noOrigin requestOrigin then
      if String.eqb (method req) "OPTIONS" then
        res ← writeHead 204
                [("Access-Control-Allow-Methods", methodsHeader);
                 ("Access-Control-Allow-Headers", headersHeader)] res;
        Returns (end_ res)
      else next res
    else
      let requestOrigin := default "" requestOrigin in
      allowed ← isOriginAllowed requestOrigin;
      if negb (truthy allowed) then next res
      else
        let allowOriginValue :=
          if strictEqStr (origin config) "*" then "*" else requestOrigin in
        res ← setHeader "Access-Control-Allow-Origin" allowOriginValue res;
        res ← setHeader "Access-Control-Allow-Methods" methodsHeader res;
        res ← setHeader "Access-Control-Allow-Headers" headersHeader res;
        if String.eqb (method req) "OPTIONS" then
          res ← writeHead 204 [] res;
          Returns (end_ res)
        else next res.

Definition createCors (options : Options) : Completion Middleware :=
  let config := normalize options in
  if negb (truthy (origin config)) then Throws "origin is required"
  else if negb (isArray (methods config))
          || (arrayLength (methods config) =? 0)%Z then
    Throws "methods must be a non-empty array"
  else if negb (isArray (allowedHeaders config))
          || (arrayLength (allowedHeaders config) =? 0)%Z then
    Throws "allowedHeaders must be a non-empty array"
  else
    isOriginAllowed ← makeIsOriginAllowed config;
    let methodsHeader := Js.join (methods config) ", " in
    let headersHeader := Js.join (allowedHeaders config) ", " in
    Returns (middleware config isOriginAllowed methodsHeader headersHeader).

End Cors.

(** ** Path rewriting *)

Module PathRewrite.

(** Modelled from the spec: the rewrite engine of the proxy core
    ([src/index.js], not among the sources). A rule pairs a
    regular-expression pattern with a replacement string; a configuration
    is either an ordered rule list or one transform function, never both. *)
Inductive RewriteRule : Type :=
| ObjectRules (rules : list (string * string))
| FunctionRule (transform : string -> string).

Section Engine.

(** The regular-expression engine of the host language: [exec pattern s]
    is the first match of [pattern] in [s], as (start index, length). *)
Variable exec : string -> string -> option (nat * nat).

(** Modelled from the spec: the regex test of a rule's pattern against the
    current path, in the rewrite engine of the missing [src/index.js]. *)
Definition test (pattern s : string) : bool :=
  match exec pattern s with Some _ => true | None => false end.

(** Modelled from the spec: the one substitution a matching rule applies
    in the rewrite engine of the missing [src/index.js]; the first match
    is replaced (replacement strings are taken literally). *)
Definition replace (pattern replacement s : string) : string :=
  match exec pattern s with
  | Some (i, n) =>
      substring 0 i s +:+ replacement
        +:+ substring (i + n) (String.length s - (i + n)) s
  | None => s
  end.

(** Modelled from the spec: one rule of the object-rule mode of the
    missing [src/index.js], tested against the current value of the path
    and, on a match, substituted into it. *)
Definition applyRule (rule : string * string) (current : string) : string :=
  if test (fst rule) current then replace (fst rule) (snd rule) current
  else current.

(** Modelled from the spec: the object-rule mode of the missing
    [src/index.js]: the rules in configuration order, each on the result
    of the rules before it. *)
Fixpoint applyRules (rules : list (string * string)) (current : string)
  : string :=
  match rules with
  | [] => current
  | rule :: rest => applyRules rest (applyRule rule current)
  end.

(** Modelled from the spec: [rewrite(originalPath)] of the missing
    [src/index.js]. Without a rewrite configuration the path is
    unchanged; a function's result is used verbatim. *)
Definition rewrite (cfg : option RewriteRule) (originalPath : string)
  : string :=
  match cfg with
  | None => originalPath
  | Some (ObjectRules rules) => applyRules rules originalPath
  | Some (FunctionRule transform) => transform originalPath
  end.

End Engine.

(** An engine for the patterns the documentation and the tests use: a
    literal, optionally anchored at the start by a leading caret. *)
Definition literalExec (pattern s : string) : option (nat * nat) :=
  match pattern with
  | String "^" lit =>
      if String.prefix lit s then Some (0, String.length lit) else None
  | _ =>
      match String.index 0 pattern s with
      | Some i => Some (i, String.length pattern)
      | None => None
      end
  end.

End PathRewrite.

(** ** The forwarding engine *)

Module Proxy.
Import Http PathRewrite.

Inductive Scheme : Type := SchemeHttp | SchemeHttps.

(** Modelled from the spec: the Target Descriptor of the missing
    [src/index.js], parsed once from the configured URL; only scheme, host
    and port are kept. *)
Record TargetDescriptor : Type := mkTarget {
  scheme : Scheme;
  host : string;
  port : Z
}.

(** Modelled from the spec: the configuration of the forwarding engine
    ([createProxy] and [createProxyMiddleware] of [src/index.js], not among
    the sources). [stripHost] says whether the inbound Host header is
    removed rather than left untouched when [changeOrigin] is off; the
    spec allows both. *)
Record Config : Type := mkConfig {
  target : TargetDescriptor;
  changeOrigin : bool;
  stripHost : bool;
  pathRewrite : option RewriteRule
}.

(** The outbound request: where it is sent and what is sent. *)
Record Outbound : Type := mkOutbound {
  outScheme : Scheme;
  outHost : string;
  outPort : Z;
  outMethod : string;
  outPath : string;
  outHeaders : gmap string string;
  outBody : string
}.

Definition hostHeader (t : TargetDescriptor) : string :=
  host t +:+ ":" +:+ pretty (port t).

(** Modelled from the spec: the outbound headers built by the missing
    [src/index.js]: copied verbatim except Host. *)
Definition outboundHeaders (cfg : Config) (req : Req) : gmap string string :=
  if changeOrigin cfg then <["host" := hostHeader (target cfg)]> (reqHeaders req)
  else if stripHost cfg then delete "host" (reqHeaders req)
  else reqHeaders req.

(** Modelled from the spec: the destination path chosen by the missing
    [src/index.js]: the rewrite engine's output, with [/] substituted for
    an empty result. *)
Definition outboundPath (exec : string -> string -> option (nat * nat))
    (cfg : Config) (req : Req) : string :=
  let rewritten := rewrite exec (pathRewrite cfg) (url req) in
  if String.eqb rewritten "" then "/" else rewritten.

(** Modelled from the spec: the outbound request the forwarding engine
    of the missing [src/index.js] builds for an inbound one. *)
Definition buildOutbound (exec : string -> string -> option (nat * nat))
    (cfg : Config) (req : Req) : Outbound :=
  {| outScheme := scheme (target cfg);
     outHost := host (target cfg);
     outPort := port (target cfg);
     outMethod := method req;
     outPath := outboundPath exec cfg req;
     outHeaders := outboundHeaders cfg req;
     outBody := reqBody req |}.

(** What the upstream call comes back with. *)
Inductive Failure : Type := Refused | DnsFailure | Timeout.

Inductive Upstream : Type :=
| UpResponse (status : Z) (headers : gmap string string) (body : string)
| UpFailure (cause : Failure) (message : string).

(** The body of a response to the inbound caller: bytes passed through, or
    a JSON object given by its fields in order. *)
Inductive Body : Type :=
| Raw (bytes : string)
| JsonObject (fields : list (string * string)).

Record Response : Type := mkResponse {
  status : Z;
  headers : gmap string string;
  body : Body
}.

Definition field (name : string) (b : Body) : option string :=
  match b with
  | Raw _ => None
  | JsonObject fields => snd <$> List.find (fun kv => String.eqb (fst kv) name) fields
  end.

(** Modelled from the spec: the fixed error response of the missing
    [src/index.js]; the status is the 500 the repository's tests expect. *)
Definition errorResponse (message : string) : Response :=
  {| status := 500;
     headers := {["content-type" := "application/json"]};
     body := JsonObject [("error", "Proxy Error"); ("message", message)] |}.

(** Modelled from the spec: [forward(inboundRequest)] of the missing
    [src/index.js]. [upstream] is the network as the engine sees it; the
    result lists the responses written to the inbound caller. *)
Definition forward (exec : string -> string -> option (nat * nat))
    (cfg : Config) (upstream : Outbound -> Upstream) (req : Req)
  : Completion (list Response) :=
  match upstream (buildOutbound exec cfg req) with
  | UpResponse st hs b =>
      Returns [{| status := st; headers := hs; body := Raw b |}]
  | UpFailure _ message => Returns [errorResponse message]
  end.

(** The scenario of the spec: target [http://up:9000] with the rule that
    strips a leading [/api]. *)
Definition upTarget : Config :=
  {| target := {| scheme := SchemeHttp; host := "up"; port := 9000 |};
     changeOrigin := true;
     stripHost := true;
     pathRewrite := Some (ObjectRules [("^/api", "")]) |}.

(** An upstream that refuses every connection. *)
Definition unreachable : Outbound -> Upstream :=
  fun _ => UpFailure Refused "connect ECONNREFUSED".

(** An upstream that answers only at [up:9000]. *)
Definition onlyUp (answer : Upstream) : Outbound -> Upstream :=
  fun out =>
    if String.eqb (outHost out) "up" && (outPort out =? 9000)%Z then answer
    else UpFailure DnsFailure "getaddrinfo ENOTFOUND".

End Proxy.

(** ** The attack detector *)

Module AttackDetector.

Inductive PathMatcher : Type :=
| Literal (s : string)
| Pattern (test : string -> bool).

(** Modelled from the spec: a WatchRule of the attack detector
    ([src/plugins/attack-detector.js], not among the sources); the
    callback is modelled by the log of its invocations in [State]. *)
Record WatchRule : Type := mkWatchRule {
  pathMatcher : PathMatcher;
  statusCode : Z;
  threshold : nat;
  timeWindow : Z
}.

(** The argument [onTrigger] is invoked with. *)
Record TriggerData : Type := mkTriggerData {
  ip : string;
  hits : nat;
  path : string;
  timestamp : Z;
  userAgent : string
}.

(** A completed response as the detector observes it. *)
Record Event : Type := mkEvent {
  evIp : string;
  evPath : string;
  evStatus : Z;
  evNow : Z;
  evUserAgent : string
}.

(** Modelled from the spec: the state of the missing
    [src/plugins/attack-detector.js]: the HitWindow of one rule (client
    key to its timestamps, oldest first) and the invocations of
    [onTrigger] so far. *)
Record State : Type := mkState {
  windows : gmap string (list Z);
  fired : list TriggerData
}.

Definition idle : State := {| windows := ∅; fired := [] |}.

Definition matches (m : PathMatcher) (p : string) : bool :=
  match m with
  | Literal s => String.eqb p s
  | Pattern test => test p
  end.

(** Modelled from the spec: the transition trigger of the missing
    [src/plugins/attack-detector.js]: a qualifying event matches the
    rule's path and has exactly its status code. *)
Definition qualifies (rule : WatchRule) (ev : Event) : bool :=
  matches (pathMatcher rule) (evPath ev) && (evStatus ev =? statusCode rule)%Z.

(** Modelled from the spec: the pruning step of the missing
    [src/plugins/attack-detector.js]: drop all timestamps older than
    [now - timeWindow]. *)
Definition prune (now window : Z) (seq : list Z) : list Z :=
  List.filter (fun t => (now - window <=? t)%Z) seq.

Definition hitsOf (st : State) (client : string) : list Z :=
  default [] (windows st !! client).

(** Modelled from the spec: the observation step of the missing
    [src/plugins/attack-detector.js]: on a qualifying event append the
    timestamp, prune, compare with the threshold, and on a trigger invoke
    the callback and clear the client's sequence. *)
Definition observe (rule : WatchRule) (st : State) (ev : Event) : State :=
  if qualifies rule ev then
    let seq := hitsOf st (evIp ev) ++ [evNow ev] in
    let pruned := prune (evNow ev) (timeWindow rule) seq in
    if (threshold rule <=? length pruned)%nat then
      {| windows := <[evIp ev := []]> (windows st);
         fired := fired st ++ [{| ip := evIp ev;
                                  hits := length pruned;
                                  path := evPath ev;
                                  timestamp := evNow ev;
                                  userAgent := evUserAgent ev |}] |}
    else
      {| windows := <[evIp ev := pruned]> (windows st);
         fired := fired st |}
  else st.

Definition observeAll (rule : WatchRule) (st : State) (evs : list Event)
  : State :=
  fold_left (observe rule) evs st.

(** A qualifying hit of the client [client]. *)
Definition hitFrom (rule : WatchRule) (client : string) (ev : Event) : Prop :=
  qualifies rule ev = true /\ evIp ev = client.

(** All hits lie within [window] of one another. *)
Definition withinWindow (window : Z) (evs : list Event) : Prop :=
  forall e e', In e evs -> In e' evs -> (evNow e' - evNow e <= window)%Z.

(** The scenario of the spec and of the test suite: two hits on a
    watched login path, 100 ms apart. *)
Definition loginRule : WatchRule :=
  {| pathMatcher := Literal "/login"; statusCode := 401;
     threshold := 2; timeWindow := 1000 |}.

Definition loginFailure (now : Z) : Event :=
  {| evIp := "1.2.3.4"; evPath := "/login"; evStatus := 401;
     evNow := now; evUserAgent := "unknown" |}.

(** The state with the client's sequence replaced. *)
Definition withHits (st : State) (client : string) (seq : list Z) : State :=
  {| windows := <[client := seq]> (windows st); fired := fired st |}.

End AttackDetector.

(** ** Vocabulary of the statements about the CORS plugin *)

Module CorsSpec.
Import Js Http Cors.

(** A value the two array checks of [createCors] let pass. *)
Definition nonEmptyArray (v : JsVal) : bool :=
  isArray v && negb (arrayLength v =? 0)%Z.

(** An origin option [createCors] accepts: falsy (defaulted to the
    wildcard), a string, a function or an array. *)
Definition validOriginShape (v : JsVal) : bool :=
  negb (truthy v) || String.eqb (typeof v) "string"
  || String.eqb (typeof v) "function" || isArray v.

(** The rule is the wildcard. *)
Definition wildcard (options : Options) : bool :=
  strictEqStr (origin (normalize options)) "*".

(** The configured rule allows, respectively does not allow, the origin
    [o]: the validator built from the options returns a truthy,
    respectively falsy, value on it. *)
Definition allows (options : Options) (o : string) : Prop :=
  exists f v, makeIsOriginAllowed (normalize options) = Returns f
              /\ f o = Returns v /\ truthy v = true.

Definition rejects (options : Options) (o : string) : Prop :=
  exists f v, makeIsOriginAllowed (normalize options) = Returns f
              /\ f o = Returns v /\ truthy v = false.

(** The header values computed at construction. *)
Definition methodsHeaderOf (options : Options) : string :=
  Js.join (methods (normalize options)) ", ".

Definition headersHeaderOf (options : Options) : string :=
  Js.join (allowedHeaders (normalize options)) ", ".

Definition ACAO : string := "access-control-allow-origin".
Definition ACAM : string := "access-control-allow-methods".
Definition ACAH : string := "access-control-allow-headers".

(** A continuation that must not run. *)
Definition nextForbidden : Next := fun _ => Throws "next was called".

(** The middleware of a configuration ([undefined] stands in when the
    construction throws). *)
Definition middlewareOf (options : Options) : Middleware :=
  match createCors options with
  | Returns mw => mw
  | Throws _ => fun _ res _ => Returns res
  end.

(** Configurations and requests of the test suite. *)
Definition singleOrigin : Options :=
  {| origin := JStr "https://example.com";
     methods := JArr [JStr "GET"; JStr "POST"];
     allowedHeaders := JArr [JStr "Content-Type"] |}.


Definition request (method : string) (headers : gmap string string) : Req :=
  {| method := method; url := "/test"; reqHeaders := headers; reqBody := "" |}.

(** What the options hold where a value passes the array gate: a falsy
    value (the default list takes its place) or a non-empty array. *)
Definition defaultedOrNonEmptyArray (v : JsVal) : bool :=
  negb (truthy v) || nonEmptyArray v.

(** A predicate that throws on every origin. *)
Definition throwingPredicate : JsVal :=
  JFun "(requestOrigin) => { throw new Error('boom'); }"
       (fun _ => Throws "boom").

End CorsSpec.

(** ** Vocabulary of further statements about the CORS plugin *)

Module CorsFrame.
Import Js Http Cors CorsSpec.

(** One of the three header names the middleware writes. *)
Definition corsHeader (k : string) : Prop :=
  k = ACAO \/ k = ACAM \/ k = ACAH.

(** [res'] is [res] up to the three CORS headers, the status and the
    flags: the body and every other header are the same. *)
Definition sameExceptCors (res res' : Res) : Prop :=
  resBody res' = resBody res
  /\ forall k, ~ corsHeader k -> resHeaders res' !! k = resHeaders res !! k.

(** The response reaches the continuation with status and flags as they
    were. *)
Definition passedOn (res res' : Res) : Prop :=
  statusCode res' = statusCode res
  /\ headersSent res' = headersSent res
  /\ finished res' = finished res.

(** The continuation that hands the response back, to observe it. *)
Definition observeNext : Next := fun res => Returns res.

(** Two predicates of the kind the examples configure: the second, like
    the one of [example/express-with-cors.js], has a branch of its own for
    an empty origin. *)
Definition localhostOnly : string -> Completion JsVal :=
  fun o => Returns (JBool (String.eqb o "http://localhost:8080")).

Definition localhostOrEmpty : string -> Completion JsVal :=
  fun o => if String.eqb o "" then Returns (JBool true)
           else Returns (JBool (String.eqb o "http://localhost:8080")).

Definition withPredicate (src : string) (f : string -> Completion JsVal)
  : Options :=
  {| origin := JFun src f;
     methods := JArr [JStr "GET"; JStr "POST"];
     allowedHeaders := JArr [JStr "Content-Type"] |}.

Definition originList : Options :=
  {| origin := JArr [JStr "https://example.com"; JStr "https://app.example.com"];
     methods := JArr [JStr "GET"; JStr "POST"];
     allowedHeaders := JArr [JStr "Content-Type"; JStr "Authorization"] |}.

End CorsFrame.

(** ** The responses the CORS middleware produces *)

Module CorsResponses.
Import Js Http Cors CorsSpec.

(** The response after the three [setHeader] calls of the middleware. *)
Definition corsHeaders (a mh hh : string) (res : Res) : Res :=
  putHeader "Access-Control-Allow-Headers" hh
    (putHeader "Access-Control-Allow-Methods" mh
       (putHeader "Access-Control-Allow-Origin" a res)).

(** The answer to a preflight without Origin: [writeHead(204, ...)] with
    the two allow headers, then [end()]. *)
Definition preflightAnswer (mh hh : string) (res : Res) : Res :=
  end_ (sendHead 204
          (putHeader "Access-Control-Allow-Headers" hh
             (putHeader "Access-Control-Allow-Methods" mh res))).

(** The answer to a preflight from an allowed origin: the three headers,
    [writeHead(204)], then [end()]. *)
Definition allowedAnswer (a mh hh : string) (res : Res) : Res :=
  end_ (sendHead 204 (corsHeaders a mh hh res)).

(** The value written to Access-Control-Allow-Origin for the origin [o]. *)
Definition allowOriginValue (options : Options) (o : string) : string :=
  if wildcard options then "*" else o.

(** The two errors Node's response object raises on the middleware's
    calls, by their code. *)
Definition nodeError (e : string) : Prop :=
  e = "ERR_HTTP_HEADERS_SENT" \/ e = "ERR_INVALID_CHAR".

(** The response object refuses what the middleware writes for this
    request: its head is already written, or one of the values to write
    holds an illegal character. *)
Definition refused (options : Options) (req : Req) (res : Res) : Prop :=
  headersSent res = true
  \/ validHeaderValue (methodsHeaderOf options) = false
  \/ validHeaderValue (headersHeaderOf options) = false
  \/ exists o, reqHeaders req !! "origin" = Some o
               /\ validHeaderValue (allowOriginValue options o) = false.

Definition crlf : string :=
  String (ascii_of_nat 13) (String (ascii_of_nat 10) EmptyString).

(** A configuration that passes [createCors] although one of its method
    names holds a line break. *)
Definition injectedMethods : Options :=
  {| origin := JStr "*";
     methods := JArr [JStr ("GET" +:+ crlf +:+ "X-Injected: 1")];
     allowedHeaders := JUndefined |}.

(** A response whose head an earlier handler has written. *)
Definition writtenRes : Res := sendHead 200 freshRes.

End CorsResponses.

(** * Properties *)

(** ** The CORS plugin *)

Section CorsFacts.
Import Js Http Cors CorsSpec.

Lemma truthy_or_l (a b : JsVal) : truthy b = true -> truthy (Js.or a b) = true.
Proof. intros Hb. unfold Js.or. destruct (truthy a) eqn:Ha; [exact Ha | exact Hb]. Qed.

Lemma normalize_origin_truthy (options : Options) :
  truthy (origin (normalize options)) = true.
Proof. apply truthy_or_l. reflexivity. Qed.

Lemma or_falsy (a b : JsVal) : truthy a = false -> Js.or a b = b.
Proof. intros Ha. unfold Js.or. now rewrite Ha. Qed.

Lemma or_truthy (a b : JsVal) : truthy a = true -> Js.or a b = a.
Proof. intros Ha. unfold Js.or. now rewrite Ha. Qed.

Lemma array_check (v : JsVal) :
  negb (isArray v) || (arrayLength v =? 0)%Z = negb (nonEmptyArray v).
Proof. unfold nonEmptyArray. now rewrite negb_andb, negb_involutive. Qed.

(** [createCors] written out by its three gates. *)
Lemma createCors_unfold (options : Options) :
  createCors options =
  let config := normalize options in
  if negb (nonEmptyArray (methods config)) then
    Throws "methods must be a non-empty array"
  else if negb (nonEmptyArray (allowedHeaders config)) then
    Throws "allowedHeaders must be a non-empty array"
  else
    match makeIsOriginAllowed config with
    | Returns f =>
        Returns (middleware config f (methodsHeaderOf options)
                   (headersHeaderOf options))
    | Throws e => Throws e
    end.
Proof.
  unfold createCors. cbv zeta.
  rewrite normalize_origin_truthy, !array_check. cbn [negb].
  reflexivity.
Qed.

Lemma createCors_Returns (options : Options) (mw : Middleware) :
  createCors options = Returns mw ->
  nonEmptyArray (methods (normalize options)) = true
  /\ nonEmptyArray (allowedHeaders (normalize options)) = true
  /\ exists f, makeIsOriginAllowed (normalize options) = Returns f
               /\ mw = middleware (normalize options) f
                         (methodsHeaderOf options) (headersHeaderOf options).
Proof.
  rewrite createCors_unfold. cbv zeta.
  destruct (nonEmptyArray (methods (normalize options))); [|discriminate].
  destruct (nonEmptyArray (allowedHeaders (normalize options))); [|discriminate].
  cbn [negb].
  destruct (makeIsOriginAllowed (normalize options)) as [f|e]; [|discriminate].
  intros [= <-]. eauto.
Qed.


Lemma noOrigin_Some (o : string) : o <> "" -> noOrigin (Some o) = false.
Proof. intros Ho. cbn. now apply String.eqb_neq. Qed.

End CorsFacts.

Section CorsClaims.
Import Js Http Cors CorsSpec CorsResponses.

Lemma lower_ACAO : toLowerCase "Access-Control-Allow-Origin" = ACAO.
Proof. reflexivity. Qed.

Lemma lower_ACAM : toLowerCase "Access-Control-Allow-Methods" = ACAM.
Proof. reflexivity. Qed.

Lemma lower_ACAH : toLowerCase "Access-Control-Allow-Headers" = ACAH.
Proof. reflexivity. Qed.

Lemma ACAO_ACAM : ACAO <> ACAM.
Proof. discriminate. Qed.

Lemma ACAO_ACAH : ACAO <> ACAH.
Proof. discriminate. Qed.

Lemma ACAM_ACAH : ACAM <> ACAH.
Proof. discriminate. Qed.

(** [setHeader] with a name that is a token. *)
Lemma setHeader_cases (name value : string) (res : Res) :
  validHeaderName name = true ->
  setHeader name value res =
  if headersSent res then Throws "ERR_HTTP_HEADERS_SENT"
  else if validHeaderValue value then Returns (putHeader name value res)
  else Throws "ERR_INVALID_CHAR".
Proof.
  intros Hn. unfold setHeader. rewrite Hn. cbn [negb].
  now destruct (headersSent res), (validHeaderValue value).
Qed.

(** The headers of a response after the three [setHeader] calls. *)
Lemma three_headers (a m h : string) (res : Res) :
  resHeaders (corsHeaders a m h res) !! ACAO = Some a
  /\ resHeaders (corsHeaders a m h res) !! ACAM = Some m
  /\ resHeaders (corsHeaders a m h res) !! ACAH = Some h
  /\ resHeaders (corsHeaders a m h res)
     = <[ACAH := h]> (<[ACAM := m]> (<[ACAO := a]> (resHeaders res))).
Proof.
  unfold corsHeaders, putHeader. cbn [resHeaders].
  rewrite lower_ACAO, lower_ACAM, lower_ACAH.
  pose proof ACAO_ACAM. pose proof ACAO_ACAH. pose proof ACAM_ACAH.
  repeat split; simplify_map_eq; reflexivity.
Qed.

(** The calls on the allowed path, in normal form. *)
Lemma allowed_path (a mh hh : string) (isOptions : bool) (res : Res)
    (next : Next) :
  (res1 ← setHeader "Access-Control-Allow-Origin" a res;
   res2 ← setHeader "Access-Control-Allow-Methods" mh res1;
   res3 ← setHeader "Access-Control-Allow-Headers" hh res2;
   if isOptions then res4 ← writeHead 204 [] res3; Returns (end_ res4)
   else next res3)
  = if headersSent res then Throws "ERR_HTTP_HEADERS_SENT"
    else if validHeaderValue a && validHeaderValue mh && validHeaderValue hh
    then if isOptions then Returns (allowedAnswer a mh hh res)
         else next (corsHeaders a mh hh res)
    else Throws "ERR_INVALID_CHAR".
Proof.
  rewrite !setHeader_cases by reflexivity.
  destruct (headersSent res) eqn:Hs; [reflexivity|].
  destruct (validHeaderValue a); [|reflexivity].
  unfold mbind, Completion_bind.
  rewrite setHeader_cases by reflexivity. cbn [putHeader headersSent].
  rewrite Hs. destruct (validHeaderValue mh); [|reflexivity].
  rewrite setHeader_cases by reflexivity. cbn [putHeader headersSent].
  rewrite Hs. destruct (validHeaderValue hh); [|reflexivity].
  cbn [andb]. destruct isOptions; [|reflexivity].
  unfold writeHead. cbn [putHeader headersSent]. rewrite Hs. reflexivity.
Qed.

(** The calls that answer a preflight without Origin, in normal form. *)
Lemma preflight_path (mh hh : string) (res : Res) :
  (res1 ← writeHead 204
            [("Access-Control-Allow-Methods", mh);
             ("Access-Control-Allow-Headers", hh)] res;
   Returns (end_ res1))
  = if headersSent res then Throws "ERR_HTTP_HEADERS_SENT"
    else if validHeaderValue mh && validHeaderValue hh
    then Returns (preflightAnswer mh hh res)
    else Throws "ERR_INVALID_CHAR".
Proof.
  unfold writeHead. destruct (headersSent res) eqn:Hs; [reflexivity|].
  cbn [Z.ltb Z.compare orb setHeaders fst snd].
  unfold mbind, Completion_bind.
  rewrite setHeader_cases by reflexivity. rewrite Hs.
  destruct (validHeaderValue mh); [|reflexivity].
  rewrite setHeader_cases by reflexivity. cbn [putHeader headersSent].
  rewrite Hs. destruct (validHeaderValue hh); reflexivity.
Qed.

(** The middleware on a request with no (or an empty) Origin. *)
Lemma middleware_without_origin (config : Options)
    (f : string -> Completion JsVal) (mh hh : string)
    (req : Req) (res : Res) (next : Next) :
  noOrigin (reqHeaders req !! "origin") = true ->
  middleware config f mh hh req res next =
  if String.eqb (method req) "OPTIONS" then
    res1 ← writeHead 204
             [("Access-Control-Allow-Methods", mh);
              ("Access-Control-Allow-Headers", hh)] res;
    Returns (end_ res1)
  else next res.
Proof. intros Ho. unfold middleware. rewrite Ho. reflexivity. Qed.

(** The middleware on a request with a non-empty Origin the validator
    returns a value for. *)
Lemma middleware_with_origin (config : Options)
    (f : string -> Completion JsVal) (mh hh : string)
    (req : Req) (res : Res) (next : Next) (o : string) (v : JsVal) :
  reqHeaders req !! "origin" = Some o -> o <> "" -> f o = Returns v ->
  middleware config f mh hh req res next =
  if truthy v then
    if headersSent res then Throws "ERR_HTTP_HEADERS_SENT"
    else if validHeaderValue (if strictEqStr (origin config) "*" then "*" else o)
            && validHeaderValue mh && validHeaderValue hh
    then if String.eqb (method req) "OPTIONS"
         then Returns (allowedAnswer
                         (if strictEqStr (origin config) "*" then "*" else o)
                         mh hh res)
         else next (corsHeaders
                      (if strictEqStr (origin config) "*" then "*" else o)
                      mh hh res)
    else Throws "ERR_INVALID_CHAR"
  else next res.
Proof.
  intros Ho Hne Hf. unfold middleware. rewrite Ho, (noOrigin_Some _ Hne).
  cbv zeta. change (default "" (Some o)) with o.
  unfold mbind at 1, Completion_bind at 1. rewrite Hf.
  destruct (truthy v); [|reflexivity]. cbn [negb].
  apply allowed_path.
Qed.

(** The middleware on a request with a non-empty Origin the validator
    throws on. *)
Lemma middleware_validator_throws (config : Options)
    (f : string -> Completion JsVal) (mh hh : string)
    (req : Req) (res : Res) (next : Next) (o e : string) :
  reqHeaders req !! "origin" = Some o -> o <> "" -> f o = Throws e ->
  middleware config f mh hh req res next = Throws e.
Proof.
  intros Ho Hne Hf. unfold middleware. rewrite Ho, (noOrigin_Some _ Hne).
  cbv zeta. change (default "" (Some o)) with o.
  unfold mbind at 1, Completion_bind at 1. now rewrite Hf.
Qed.

End CorsClaims.

Section CorsConstructionFacts.
Import Js Http Cors CorsSpec CorsResponses.

(** The validator is built for every accepted shape of the origin option. *)
Lemma makeIsOriginAllowed_valid (options : Options) :
  validOriginShape (origin options) = true ->
  exists f, makeIsOriginAllowed (normalize options) = Returns f.
Proof.
  unfold validOriginShape, makeIsOriginAllowed, normalize, Js.or.
  cbn [origin].
  destruct (origin options) as [| |b|n Hn| |s|l| |src call]; cbn;
    try (intros _; eauto; fail); try discriminate.
  - destruct b; [discriminate | cbn; eauto].
  - destruct (n =? 0)%Z; cbn; [eauto | discriminate].
  - intros _. destruct (String.eqb s ""); cbn; [eauto|].
    destruct (String.eqb s "*"); eauto.
Qed.

(** An origin of any other shape makes the validator's construction throw. *)
Lemma makeIsOriginAllowed_invalid (options : Options) :
  validOriginShape (origin options) = false ->
  makeIsOriginAllowed (normalize options) = Throws originTypeError.
Proof.
  unfold validOriginShape, makeIsOriginAllowed, normalize, Js.or.
  cbn [origin].
  destruct (origin options) as [| |b|n Hn| |s|l| |src call]; cbn;
    try discriminate; try reflexivity.
  - destruct b; [reflexivity | discriminate].
  - destruct (n =? 0)%Z; [discriminate | reflexivity].
  - destruct (String.eqb s ""); cbn; discriminate.
Qed.

Lemma nonEmptyArray_or (v d : JsVal) :
  defaultedOrNonEmptyArray v = true -> nonEmptyArray d = true ->
  nonEmptyArray (Js.or v d) = true.
Proof.
  unfold defaultedOrNonEmptyArray, Js.or. intros Hv Hd.
  destruct (truthy v); [exact Hv | exact Hd].
Qed.

Lemma nonEmptyArray_or_eq (v d : JsVal) :
  nonEmptyArray d = true ->
  nonEmptyArray (Js.or v d) = defaultedOrNonEmptyArray v.
Proof.
  intros Hd. unfold defaultedOrNonEmptyArray, Js.or.
  destruct (truthy v); [reflexivity | exact Hd].
Qed.

(** [createCors] by its gates, read on the options themselves. *)
Lemma createCors_cases (options : Options) :
  createCors options =
  if negb (defaultedOrNonEmptyArray (methods options)) then
    Throws "methods must be a non-empty array"
  else if negb (defaultedOrNonEmptyArray (allowedHeaders options)) then
    Throws "allowedHeaders must be a non-empty array"
  else if validOriginShape (origin options) then
    match makeIsOriginAllowed (normalize options) with
    | Returns f =>
        Returns (middleware (normalize options) f (methodsHeaderOf options)
                   (headersHeaderOf options))
    | Throws e => Throws e
    end
  else Throws originTypeError.
Proof.
  rewrite createCors_unfold. cbv zeta.
  unfold normalize at 1 2. cbn [methods allowedHeaders].
  rewrite (nonEmptyArray_or_eq _ defaultMethods eq_refl),
    (nonEmptyArray_or_eq _ defaultAllowedHeaders eq_refl).
  destruct (defaultedOrNonEmptyArray (methods options)); [|reflexivity].
  destruct (defaultedOrNonEmptyArray (allowedHeaders options)); [|reflexivity].
  cbn [negb].
  destruct (validOriginShape (origin options)) eqn:Ho; [reflexivity|].
  now rewrite (makeIsOriginAllowed_invalid _ Ho).
Qed.

Lemma originTypeError_methods :
  originTypeError <> "methods must be a non-empty array".
Proof. discriminate. Qed.

Lemma originTypeError_allowedHeaders :
  originTypeError <> "allowedHeaders must be a non-empty array".
Proof. discriminate. Qed.

Lemma noOrigin_false (ro : option string) :
  noOrigin ro = false -> exists o, ro = Some o /\ o <> "".
Proof.
  destruct ro as [o|]; [|discriminate]. cbn. intros H.
  exists o. split; [reflexivity|]. now apply String.eqb_neq.
Qed.

(** What a request can make the middleware throw: what the validator or
    the continuation throws, or one of the two errors of the response
    object. *)
Lemma middleware_throws (config : Options) (f : string -> Completion JsVal)
    (mh hh : string) (req : Req) (res : Res) (next : Next) (e : string) :
  middleware config f mh hh req res next = Throws e ->
  (exists o, f o = Throws e) \/ (exists r, next r = Throws e) \/ nodeError e.
Proof.
  unfold nodeError.
  destruct (noOrigin (reqHeaders req !! "origin")) eqn:Hno.
  - rewrite (middleware_without_origin _ _ _ _ _ _ _ Hno).
    destruct (String.eqb (method req) "OPTIONS"); [|eauto].
    rewrite preflight_path.
    destruct (headersSent res); [intros [= <-]; auto|].
    destruct (validHeaderValue mh && validHeaderValue hh);
      [discriminate | intros [= <-]; auto].
  - destruct (noOrigin_false _ Hno) as (o & Ho & Hne).
    destruct (f o) as [v|e'] eqn:Hv.
    + rewrite (middleware_with_origin _ _ _ _ _ _ _ _ _ Ho Hne Hv).
      destruct (truthy v); [|eauto].
      destruct (headersSent res); [intros [= <-]; auto|].
      destruct (_ && _); [|intros [= <-]; auto].
      destruct (String.eqb (method req) "OPTIONS"); [discriminate | eauto].
    + rewrite (middleware_validator_throws _ _ _ _ _ _ _ _ _ Ho Hne Hv).
      intros [= ->]. eauto.
Qed.

End CorsConstructionFacts.

Section CorsClaimTheorems.
Import Js Http Cors CorsSpec CorsResponses.




(** C6, as stated, fails where the response object refuses the call: a
    configuration whose method name holds a line break passes
    [createCors], and on an OPTIONS request without Origin [writeHead]
    throws on the joined value, so nothing is answered; the same happens
    on a response whose head is already written. *)
Lemma cors_preflight_refused_by_response :
  (exists mw,
      createCors injectedMethods = Returns mw
      /\ reqHeaders (request "OPTIONS" ∅) !! "origin" = None
      /\ mw (request "OPTIONS" ∅) freshRes Returns = Throws "ERR_INVALID_CHAR")
  /\ (exists mw,
         createCors singleOrigin = Returns mw
         /\ mw (request "OPTIONS" ∅) writtenRes Returns
            = Throws "ERR_HTTP_HEADERS_SENT").
Proof. split; eexists; repeat split; reflexivity. Qed.

(** C6 (amended): an OPTIONS request with no Origin header (or an empty
    one), on a response whose head is not yet written and when the two
    joined lists are legal header values, is answered with status 204 and
    nothing written to the body; the response carries
    Access-Control-Allow-Methods and Access-Control-Allow-Headers with the
    configured values, its Access-Control-Allow-Origin entry is left as
    it was (absent on a fresh response), and the outcome is the same
    whatever [next] is: the request is not passed on. *)
Theorem cors_preflight_without_origin
    (options : Options) (mw : Middleware) (req : Req) (res : Res) :
  createCors options = Returns mw ->
  noOrigin (reqHeaders req !! "origin") = true ->
  method req = "OPTIONS" ->
  headersSent res = false ->
  validHeaderValue (Js.join (methods (normalize options)) ", ") = true ->
  validHeaderValue (Js.join (allowedHeaders (normalize options)) ", ") = true ->
  exists res',
    (forall next : Next, mw req res next = Returns res')
    /\ statusCode res' = 204%Z
    /\ finished res' = true
    /\ resBody res' = resBody res
    /\ resHeaders res' =
       <[ACAH := Js.join (allowedHeaders (normalize options)) ", "]>
         (<[ACAM := Js.join (methods (normalize options)) ", "]> (resHeaders res))
    /\ resHeaders res' !! ACAO = resHeaders res !! ACAO.
Proof.
  intros Hc Ho Hm Hs Hvm Hvh.
  destruct (createCors_Returns _ _ Hc) as (_ & _ & f & _ & ->).
  eexists. split.
  - intros next. rewrite (middleware_without_origin _ _ _ _ _ _ _ Ho), Hm.
    cbn [String.eqb Ascii.eqb Bool.eqb]. rewrite preflight_path, Hs.
    unfold methodsHeaderOf, headersHeaderOf. rewrite Hvm, Hvh. reflexivity.
  - unfold preflightAnswer.
    cbn [end_ sendHead putHeader statusCode finished resBody resHeaders].
    rewrite lower_ACAM, lower_ACAH.
    repeat split.
    pose proof ACAO_ACAM. pose proof ACAO_ACAH.
    now rewrite !lookup_insert_ne by congruence.
Qed.

Lemma cors_preflight_without_origin_witness :
  exists res',
    (forall next : Next,
        middlewareOf singleOrigin (request "OPTIONS" ∅) freshRes next = Returns res')
    /\ statusCode res' = 204%Z
    /\ resBody res' = ""
    /\ resHeaders res' !! ACAM = Some "GET, POST"
    /\ resHeaders res' !! ACAH = Some "Content-Type"
    /\ resHeaders res' !! ACAO = None.
Proof.
  destruct (cors_preflight_without_origin singleOrigin
              (middlewareOf singleOrigin) (request "OPTIONS" ∅) freshRes)
    as (res' & Hn & Hs & _ & Hb & Hh & Ho); try reflexivity.
  exists res'. rewrite Hh in *. repeat split; try assumption; reflexivity.
Defined.

(** C7, as stated, fails on an OPTIONS request whose Origin header is
    the empty string: the single-origin rule does not allow that origin,
    yet the request is answered as a preflight without Origin, with
    Access-Control-Allow-Methods set and [next] never invoked. *)
Lemma cors_empty_origin_preflight_is_answered :
  exists mw res',
    createCors singleOrigin = Returns mw
    /\ reqHeaders (request "OPTIONS" {["origin" := ""]}) !! "origin" = Some ""
    /\ rejects singleOrigin ""
    /\ mw (request "OPTIONS" {["origin" := ""]}) freshRes nextForbidden
       = Returns res'
    /\ statusCode res' = 204%Z
    /\ resHeaders res' !! ACAM = Some "GET, POST".
Proof.
  eexists _, _. split; [reflexivity|]. split; [reflexivity|].
  split; [eexists _, _; repeat split; reflexivity|].
  repeat split; reflexivity.
Qed.

(** C7 (amended): for every request carrying a non-empty Origin header
    that the configured origin rule does not allow, whatever the method,
    the middleware does nothing but invoke [next] on the response it was
    given: no header is attached and no field of the response changes. *)
Theorem cors_disallowed_origin_calls_next
    (options : Options) (mw : Middleware) (req : Req) (res : Res)
    (next : Next) (o : string) :
  createCors options = Returns mw ->
  reqHeaders req !! "origin" = Some o ->
  o <> "" ->
  rejects options o ->
  mw req res next = next res.
Proof.
  intros Hc Ho Hne (f & v & Hf & Hv & Ht).
  destruct (createCors_Returns _ _ Hc) as (_ & _ & f' & Hf' & ->).
  rewrite Hf in Hf'. injection Hf' as <-.
  rewrite (middleware_with_origin _ _ _ _ _ _ _ _ _ Ho Hne Hv), Ht.
  reflexivity.
Qed.

Lemma cors_disallowed_origin_calls_next_witness :
  middlewareOf singleOrigin
    (request "OPTIONS" {["origin" := "https://evil.com"]}) freshRes Returns
  = Returns freshRes.
Proof.
  apply (cors_disallowed_origin_calls_next singleOrigin
           (middlewareOf singleOrigin)
           (request "OPTIONS" {["origin" := "https://evil.com"]})
           freshRes Returns "https://evil.com").
  - reflexivity.
  - reflexivity.
  - discriminate.
  - eexists _, _. repeat split; reflexivity.
Defined.

(** C8, as stated, fails: with a predicate that throws, construction
    succeeds, and the exception surfaces when a request with an Origin
    header is handled. *)
Lemma cors_throwing_predicate_surfaces_per_request :
  exists mw,
    createCors {| origin := throwingPredicate;
                  methods := JUndefined;
                  allowedHeaders := JUndefined |} = Returns mw
    /\ mw (request "GET" {["origin" := "https://example.com"]}) freshRes Returns
       = Throws "boom".
Proof. eexists. split; reflexivity. Qed.

(** C8 (amended): [createCors] never calls a predicate origin rule at
    construction, so construction succeeds whatever the predicate does;
    the predicate is called per request, on the non-empty Origin value,
    and an exception it throws there propagates out of the middleware;
    a request with no (or an empty) Origin header is handled without
    calling the predicate. *)
Theorem cors_predicate_evaluated_per_request
    (options : Options) (src : string) (call : string -> Completion JsVal) :
  origin options = JFun src call ->
  defaultedOrNonEmptyArray (methods options) = true ->
  defaultedOrNonEmptyArray (allowedHeaders options) = true ->
  exists mw,
    createCors options = Returns mw
    /\ (forall req res next o e,
           reqHeaders req !! "origin" = Some o -> o <> "" ->
           call o = Throws e -> mw req res next = Throws e)
    /\ (forall req res next,
           noOrigin (reqHeaders req !! "origin") = true ->
           mw req res next =
           if String.eqb (method req) "OPTIONS" then
             res1 ← writeHead 204
                      [("Access-Control-Allow-Methods",
                         Js.join (methods (normalize options)) ", ");
                       ("Access-Control-Allow-Headers",
                         Js.join (allowedHeaders (normalize options)) ", ")]
                      res;
             Returns (end_ res1)
           else next res).
Proof.
  intros Ho Hm Hh.
  assert (Hcfg : origin (normalize options) = JFun src call).
  { unfold normalize; cbn [origin]. rewrite Ho. reflexivity. }
  assert (Hf : makeIsOriginAllowed (normalize options) = Returns call).
  { unfold makeIsOriginAllowed. rewrite Hcfg. reflexivity. }
  eexists. split.
  - rewrite createCors_unfold. cbv zeta. unfold normalize at 1 2; cbn [methods allowedHeaders].
    rewrite (nonEmptyArray_or _ defaultMethods Hm eq_refl),
      (nonEmptyArray_or _ defaultAllowedHeaders Hh eq_refl).
    cbn [negb]. rewrite Hf. reflexivity.
  - split.
    + intros req res next o e Hro Hne He.
      now apply middleware_validator_throws with (o := o).
    + intros req res next Hno.
      now rewrite (middleware_without_origin _ _ _ _ _ _ _ Hno).
Qed.

Lemma cors_predicate_evaluated_per_request_witness :
  exists mw,
    createCors {| origin := throwingPredicate;
                  methods := JUndefined;
                  allowedHeaders := JUndefined |} = Returns mw
    /\ mw (request "GET" {["origin" := "https://example.com"]}) freshRes Returns
       = Throws "boom"
    /\ mw (request "GET" ∅) freshRes Returns = Returns freshRes.
Proof.
  destruct (cors_predicate_evaluated_per_request
              {| origin := throwingPredicate;
                 methods := JUndefined;
                 allowedHeaders := JUndefined |}
              "(requestOrigin) => { throw new Error('boom'); }"
              (fun _ => Throws "boom"))
    as (mw & Hc & Hthrow & Hskip).
  - reflexivity.
  - reflexivity.
  - reflexivity.
  - exists mw. split; [exact Hc|]. split.
    + apply (Hthrow _ _ _ "https://example.com"); [reflexivity | discriminate | reflexivity].
    + apply (Hskip (request "GET" ∅) freshRes Returns). reflexivity.
Defined.

(** C9, as stated, fails: a [methods] option that is present but falsy
    (here the number 0, likewise the empty string or [null]) is not a
    non-empty array, yet construction succeeds, the default list taking
    its place. *)
Lemma cors_falsy_methods_fall_back_to_default :
  exists mw,
    createCors {| origin := JStr "*";
                  methods := JNum 0 eq_refl;
                  allowedHeaders := JStr "" |} = Returns mw
    /\ nonEmptyArray (JNum 0 eq_refl) = false
    /\ nonEmptyArray (JStr "") = false
    /\ methodsHeaderOf {| origin := JStr "*";
                          methods := JNum 0 eq_refl;
                          allowedHeaders := JStr "" |}
       = "GET, POST, PUT, DELETE, PATCH, HEAD".
Proof. eexists. repeat split; reflexivity. Qed.

(** C9 (amended): [createCors] raises at construction whenever the
    [methods] or [allowedHeaders] option is truthy but not a non-empty
    array (a falsy value is replaced by the default list instead), the
    [methods] error coming first; conversely, when each of the two is
    falsy or a non-empty array and the origin has a valid shape,
    construction succeeds, and the two fields are not validated at
    request time: an exception that leaves the middleware was thrown by
    the origin validator, by the continuation or by the response object
    (head already written, illegal character in a header value). *)
Theorem cors_array_validation_at_construction (options : Options) :
  (truthy (methods options) = true ->
   nonEmptyArray (methods options) = false ->
   createCors options = Throws "methods must be a non-empty array")
  /\ (truthy (allowedHeaders options) = true ->
      nonEmptyArray (allowedHeaders options) = false ->
      createCors options
      = Throws (if defaultedOrNonEmptyArray (methods options)
                then "allowedHeaders must be a non-empty array"
                else "methods must be a non-empty array"))
  /\ (defaultedOrNonEmptyArray (methods options) = true ->
      defaultedOrNonEmptyArray (allowedHeaders options) = true ->
      validOriginShape (origin options) = true ->
      exists mw f,
        createCors options = Returns mw
        /\ makeIsOriginAllowed (normalize options) = Returns f
        /\ forall req res next e,
             mw req res next = Throws e ->
             (exists o, f o = Throws e) \/ (exists r, next r = Throws e)
             \/ e = "ERR_HTTP_HEADERS_SENT" \/ e = "ERR_INVALID_CHAR").
Proof.
  split; [|split].
  - intros Ht Hn. rewrite createCors_cases.
    unfold defaultedOrNonEmptyArray. now rewrite Ht, Hn.
  - intros Ht Hn. rewrite createCors_cases.
    destruct (defaultedOrNonEmptyArray (methods options)); [|reflexivity].
    unfold defaultedOrNonEmptyArray. now rewrite Ht, Hn.
  - intros Hm Hh Ho.
    destruct (makeIsOriginAllowed_valid _ Ho) as [f Hf].
    eexists _, f. split; [|split; [exact Hf|]].
    + rewrite createCors_cases, Hm, Hh, Ho, Hf. reflexivity.
    + intros req res next e. apply middleware_throws.
Qed.

Lemma cors_array_validation_at_construction_witness :
  createCors {| origin := JUndefined; methods := JStr "GET";
                allowedHeaders := JUndefined |}
  = Throws "methods must be a non-empty array"
  /\ createCors {| origin := JUndefined; methods := JUndefined;
                   allowedHeaders := JArr [] |}
     = Throws "allowedHeaders must be a non-empty array"
  /\ exists mw,
       createCors singleOrigin = Returns mw
       /\ mw (request "GET" ∅) freshRes nextForbidden = Throws "next was called"
       /\ exists r, nextForbidden r = Throws "next was called".
Proof.
  split; [|split].
  - apply (proj1 (cors_array_validation_at_construction
                    {| origin := JUndefined; methods := JStr "GET";
                       allowedHeaders := JUndefined |})); reflexivity.
  - apply (proj1 (proj2 (cors_array_validation_at_construction
                           {| origin := JUndefined; methods := JUndefined;
                              allowedHeaders := JArr [] |}))); reflexivity.
  - destruct (cors_array_validation_at_construction singleOrigin)
      as (_ & _ & H).
    destruct H as (mw & f & Hc & Hf & Hthrows);
      [reflexivity | reflexivity | reflexivity |].
    assert (Hmw : mw = middlewareOf singleOrigin).
    { assert (Hc' : createCors singleOrigin = Returns (middlewareOf singleOrigin))
        by reflexivity.
      rewrite Hc in Hc'. now injection Hc' as ->. }
    assert (Hcall : mw (request "GET" ∅) freshRes nextForbidden
                    = Throws "next was called") by (rewrite Hmw; reflexivity).
    exists mw. split; [exact Hc|]. split; [exact Hcall|].
    destruct (Hthrows _ _ _ _ Hcall) as [[o Ho]|[Hn|[He|He]]];
      [| exact Hn | discriminate He | discriminate He].
    exfalso. change (Returns (fun requestOrigin =>
                                Returns (JBool (strictEqStr (JStr "https://example.com")
                                                  requestOrigin)))
                     = Returns f) in Hf.
    injection Hf as <-. discriminate Ho.
Defined.

(** C10: every falsy origin option (absent or [undefined], [null], the
    empty string, 0, and also [false] and NaN) is replaced by the wildcard
    when the options are normalised, before the required-origin check, so
    [config.origin] is always truthy and [createCors] never raises
    [origin is required]; a configuration with
    a falsy origin, the empty string among them, builds the very
    middleware of the wildcard configuration, and that middleware allows
    every origin: on a response whose head is unwritten and with legal
    joined lists, every request with a non-empty Origin gets
    Access-Control-Allow-Origin set to [*]. *)
Theorem cors_origin_required_unreachable (options : Options) :
  origin (normalize options)
  = (if truthy (origin options) then origin options else JStr "*")
  /\ truthy (origin (normalize options)) = true
  /\ match createCors options with
     | Returns _ => True
     | Throws msg => msg <> "origin is required"
     end
  /\ (truthy (origin options) = false ->
      createCors options
      = createCors {| origin := JStr "*";
                      methods := methods options;
                      allowedHeaders := allowedHeaders options |})
  /\ (truthy (origin options) = false ->
      defaultedOrNonEmptyArray (methods options) = true ->
      defaultedOrNonEmptyArray (allowedHeaders options) = true ->
      exists mw,
        createCors options = Returns mw
        /\ forall req res next o,
             reqHeaders req !! "origin" = Some o ->
             o <> "" ->
             headersSent res = false ->
             validHeaderValue (Js.join (methods (normalize options)) ", ") = true ->
             validHeaderValue (Js.join (allowedHeaders (normalize options)) ", ") = true ->
             exists res',
               resHeaders res' !! ACAO = Some "*"
               /\ mw req res next =
                  (if String.eqb (method req) "OPTIONS" then Returns res'
                   else next res')).
Proof.
  split; [reflexivity|].
  split; [apply normalize_origin_truthy|].
  split; [|split].
  - rewrite createCors_cases.
    destruct (defaultedOrNonEmptyArray (methods options)); cbn [negb];
      [|discriminate].
    destruct (defaultedOrNonEmptyArray (allowedHeaders options)); cbn [negb];
      [|discriminate].
    destruct (validOriginShape (origin options)) eqn:Ho; [|discriminate].
    now destruct (makeIsOriginAllowed_valid _ Ho) as [f ->].
  - intros Hfalsy. unfold createCors. cbv zeta.
    assert (Hn : normalize options
                 = normalize {| origin := JStr "*";
                                methods := methods options;
                                allowedHeaders := allowedHeaders options |}).
    { unfold normalize. cbn [origin methods allowedHeaders].
      now rewrite (or_falsy _ _ Hfalsy). }
    now rewrite Hn.
  - intros Hfalsy Hm Hh.
    assert (Hcfg : origin (normalize options) = JStr "*").
    { unfold normalize. cbn [origin]. now rewrite (or_falsy _ _ Hfalsy). }
    assert (Hf : makeIsOriginAllowed (normalize options)
                 = Returns (fun _ => Returns (JBool true))).
    { unfold makeIsOriginAllowed. now rewrite Hcfg. }
    assert (Hshape : validOriginShape (origin options) = true).
    { unfold validOriginShape. now rewrite Hfalsy. }
    eexists. split.
    + rewrite createCors_cases, Hm, Hh, Hshape, Hf. reflexivity.
    + intros req res next o Ho Hne Hs Hvm Hvh.
      rewrite (middleware_with_origin _ _ _ _ _ _ _ _ (JBool true) Ho Hne eq_refl).
      cbn [truthy]. rewrite Hs, Hcfg. cbn [strictEqStr String.eqb Ascii.eqb Bool.eqb].
      unfold methodsHeaderOf, headersHeaderOf. rewrite Hvm, Hvh.
      cbn [validHeaderValue allChars andb].
      change (headerChar "*") with true. cbn [andb].
      destruct (three_headers "*" (Js.join (methods (normalize options)) ", ")
                  (Js.join (allowedHeaders (normalize options)) ", ") res)
        as (Ha & _).
      destruct (String.eqb (method req) "OPTIONS");
        [exists (allowedAnswer "*" (Js.join (methods (normalize options)) ", ")
                   (Js.join (allowedHeaders (normalize options)) ", ") res)
        |exists (corsHeaders "*" (Js.join (methods (normalize options)) ", ")
                   (Js.join (allowedHeaders (normalize options)) ", ") res)];
        (split; [exact Ha | reflexivity]).
Qed.

Lemma cors_origin_required_unreachable_witness :
  createCors {| origin := JStr ""; methods := JUndefined;
                allowedHeaders := JUndefined |}
  = createCors {| origin := JStr "*"; methods := JUndefined;
                  allowedHeaders := JUndefined |}
  /\ exists mw,
       createCors {| origin := JStr ""; methods := JUndefined;
                     allowedHeaders := JUndefined |} = Returns mw
       /\ exists res',
            resHeaders res' !! ACAO = Some "*"
            /\ mw (request "GET" {["origin" := "https://any-domain.com"]})
                 freshRes Returns
               = Returns res'.
Proof.
  destruct (cors_origin_required_unreachable
              {| origin := JStr ""; methods := JUndefined;
                 allowedHeaders := JUndefined |})
    as (_ & _ & _ & Hsame & Hall).
  split; [apply Hsame; reflexivity|].
  destruct Hall as (mw & Hc & Hmw); [reflexivity | reflexivity | reflexivity |].
  exists mw. split; [exact Hc|].
  apply (Hmw (request "GET" {["origin" := "https://any-domain.com"]})
           freshRes Returns "https://any-domain.com");
    [reflexivity | discriminate | reflexivity | reflexivity | reflexivity].
Defined.

End CorsClaimTheorems.

(** ** The attack detector *)

Section DetectorFacts.
Import AttackDetector.

Variable rule : WatchRule.
Variable client : string.

Lemma prune_length (now window : Z) (seq : list Z) :
  length (prune now window seq) <= length seq.
Proof.
  unfold prune. induction seq as [|t seq IH]; simpl; [lia|].
  destruct (now - window <=? t)%Z; simpl; lia.
Qed.

Lemma prune_all (now window : Z) (seq : list Z) :
  (forall t, In t seq -> (now - window <= t)%Z) -> prune now window seq = seq.
Proof.
  unfold prune. induction seq as [|t seq IH]; intros H; simpl; [reflexivity|].
  rewrite (proj2 (Z.leb_le _ _) (H t (or_introl eq_refl))).
  f_equal. apply IH. intros t' Ht'. apply H. now right.
Qed.

Lemma prune_expired (now window t0 : Z) (seq : list Z) :
  (t0 + window < now)%Z -> prune now window (t0 :: seq) = prune now window seq.
Proof.
  intros H. unfold prune. simpl. now rewrite (proj2 (Z.leb_gt _ _)) by lia.
Qed.

Lemma hitsOf_insert (st : State) (seq : list Z) (fs : list TriggerData) :
  hitsOf {| windows := <[client := seq]> (windows st); fired := fs |} client = seq.
Proof. unfold hitsOf. cbn. now rewrite lookup_insert_eq. Qed.

(** One hit that leaves the pruned sequence below the threshold. *)
Lemma observe_below (st : State) (ev : Event) :
  hitFrom rule client ev ->
  length (prune (evNow ev) (timeWindow rule) (hitsOf st client ++ [evNow ev]))
  < threshold rule ->
  observe rule st ev =
  withHits st client
    (prune (evNow ev) (timeWindow rule) (hitsOf st client ++ [evNow ev])).
Proof.
  intros [Hq <-] Hlt. unfold observe. rewrite Hq. cbv zeta.
  now rewrite (proj2 (Nat.leb_gt _ _) Hlt).
Qed.

(** One hit that brings the pruned sequence to the threshold. *)
Lemma observe_trigger (st : State) (ev : Event) :
  hitFrom rule client ev ->
  threshold rule
  <= length (prune (evNow ev) (timeWindow rule) (hitsOf st client ++ [evNow ev])) ->
  observe rule st ev =
  {| windows := <[client := []]> (windows st);
     fired := fired st ++
       [{| ip := client;
           hits := length (prune (evNow ev) (timeWindow rule)
                             (hitsOf st client ++ [evNow ev]));
           path := evPath ev;
           timestamp := evNow ev;
           userAgent := evUserAgent ev |}] |}.
Proof.
  intros [Hq <-] Hle. unfold observe. rewrite Hq. cbv zeta.
  now rewrite (proj2 (Nat.leb_le _ _) Hle).
Qed.

(** Fewer hits than the threshold never fire, wherever they fall in time. *)
Lemma below_threshold_silent (evs : list Event) : forall st : State,
  Forall (fun e => evIp e = client) evs ->
  length (hitsOf st client) + length evs < threshold rule ->
  fired (observeAll rule st evs) = fired st
  /\ length (hitsOf (observeAll rule st evs) client)
     <= length (hitsOf st client) + length evs.
Proof.
  induction evs as [|e evs IH]; intros st Hall Hlen; simpl in *;
    [split; [reflexivity | lia]|].
  pose proof (Forall_inv Hall) as He. pose proof (Forall_inv_tail Hall) as Hrest.
  destruct (qualifies rule e) eqn:Hq.
  - pose proof (prune_length (evNow e) (timeWindow rule)
                  (hitsOf st client ++ [evNow e])) as Hp.
    rewrite length_app in Hp; simpl in Hp.
    rewrite (observe_below st e (conj Hq He)) by lia.
    destruct (IH (withHits st client
                    (prune (evNow e) (timeWindow rule)
                       (hitsOf st client ++ [evNow e]))) Hrest) as [Hf Hl].
    + unfold withHits. rewrite hitsOf_insert. lia.
    + unfold withHits in *. rewrite hitsOf_insert in Hl.
      split; [exact Hf | lia].
  - assert (Hst : observe rule st e = st) by (unfold observe; now rewrite Hq).
    rewrite Hst. destruct (IH st Hrest) as [Hf Hl]; [lia|].
    split; [exact Hf | lia].
Qed.

(** Hits that lie within the window of one another accumulate. *)
Lemma within_window_accumulate (evs : list Event) : forall st : State,
  Forall (hitFrom rule client) evs ->
  (forall t e, In t (hitsOf st client ++ List.map evNow evs) -> In e evs ->
               (evNow e - timeWindow rule <= t)%Z) ->
  length (hitsOf st client) + length evs < threshold rule ->
  observeAll rule st evs
  = match evs with
    | [] => st
    | _ => withHits st client (hitsOf st client ++ List.map evNow evs)
    end.
Proof.
  induction evs as [|e evs IH]; intros st Hall Hwin Hlen; [reflexivity|].
  pose proof (Forall_inv Hall) as He. pose proof (Forall_inv_tail Hall) as Hrest.
  simpl in Hlen.
  assert (Hkeep : prune (evNow e) (timeWindow rule) (hitsOf st client ++ [evNow e])
                  = hitsOf st client ++ [evNow e]).
  { apply prune_all. intros t Ht. apply Hwin; [|now left].
    cbn. apply in_app_iff in Ht. apply in_app_iff.
    destruct Ht as [Ht|[<-|[]]]; [now left | right; now left]. }
  cbn [observeAll fold_left].
  rewrite (observe_below st e He) by (rewrite Hkeep, length_app; cbn; lia).
  rewrite Hkeep. fold (observeAll rule (withHits st client (hitsOf st client ++ [evNow e])) evs).
  rewrite IH; [| exact Hrest | | ].
  - unfold withHits. rewrite hitsOf_insert. cbn [windows fired].
    destruct evs as [|e' evs']; [cbn; reflexivity|].
    rewrite insert_insert_eq. cbn [List.map]. now rewrite <- app_assoc.
  - unfold withHits. rewrite hitsOf_insert. intros t e' Ht He'.
    apply Hwin; [|now right]. cbn [List.map]. now rewrite <- app_assoc in Ht.
  - unfold withHits. rewrite hitsOf_insert, length_app. cbn. lia.
Qed.

End DetectorFacts.

Section DetectorClaims.
Import AttackDetector.

(** C3: for a detector with threshold T > 0 and window W and one client
    that has no recorded hits: fewer than T qualifying hits never invoke
    the callback; T qualifying hits that lie within W of one another
    invoke it exactly once, at the T-th hit, with [hits] equal to the
    length of the pruned sequence, which is T, and leave the client's
    sequence empty; and a qualifying hit that arrives more than W after
    the earliest recorded hit is handled exactly as if that earliest hit
    had never been recorded (it is dropped before the comparison with
    the threshold). *)
Theorem detector_threshold_and_window
    (rule : WatchRule) (client : string) (st : State) :
  0 < threshold rule ->
  hitsOf st client = [] ->
  (forall evs,
      Forall (hitFrom rule client) evs ->
      withinWindow (timeWindow rule) evs ->
      length evs < threshold rule ->
      fired (observeAll rule st evs) = fired st)
  /\ (forall pre last,
         Forall (hitFrom rule client) (pre ++ [last]) ->
         withinWindow (timeWindow rule) (pre ++ [last]) ->
         length (pre ++ [last]) = threshold rule ->
         fired (observeAll rule st pre) = fired st
         /\ fired (observeAll rule st (pre ++ [last]))
            = fired st ++ [{| ip := client;
                              hits := threshold rule;
                              path := evPath last;
                              timestamp := evNow last;
                              userAgent := evUserAgent last |}]
         /\ threshold rule
            = length (prune (evNow last) (timeWindow rule)
                        (List.map evNow (pre ++ [last])))
         /\ windows (observeAll rule st (pre ++ [last])) !! client = Some [])
  /\ (forall st0 t0 rest ev,
         windows st0 !! client = Some (t0 :: rest) ->
         hitFrom rule client ev ->
         (t0 + timeWindow rule < evNow ev)%Z ->
         observe rule st0 ev = observe rule (withHits st0 client rest) ev).
Proof.
  intros HT Hidle. split; [|split].
  - intros evs Hall _ Hlen.
    apply (below_threshold_silent rule client evs st).
    + eapply List.Forall_impl; [|exact Hall]. now intros e [_ He].
    + rewrite Hidle. simpl. lia.
  - intros pre last Hall Hwin Hlen.
    rewrite length_app in Hlen; simpl in Hlen.
    apply Forall_app in Hall as [Hpre Hlast].
    pose proof (Forall_inv Hlast) as Hl.
    assert (Hkeep : forall t e, In t (List.map evNow (pre ++ [last])) ->
                      In e (pre ++ [last]) -> (evNow e - timeWindow rule <= t)%Z).
    { intros t e Ht He. apply in_map_iff in Ht as (e0 & <- & He0).
      specialize (Hwin e0 e He0 He). lia. }
    assert (Hacc : hitsOf (observeAll rule st pre) client = List.map evNow pre
                   /\ fired (observeAll rule st pre) = fired st).
    { rewrite (within_window_accumulate rule client pre st Hpre).
      - rewrite Hidle. destruct pre; [now rewrite Hidle|].
        unfold withHits. now rewrite hitsOf_insert.
      - rewrite Hidle. intros t e Ht He. simpl in Ht.
        apply (Hkeep t e).
        + rewrite List.map_app. apply in_app_iff. now left.
        + apply in_app_iff. now left.
      - rewrite Hidle. simpl. lia. }
    destruct Hacc as [Hhits Hfired].
    assert (Hpruned : prune (evNow last) (timeWindow rule)
                        (List.map evNow (pre ++ [last]))
                      = List.map evNow (pre ++ [last])).
    { apply prune_all. intros t Ht. apply (Hkeep t last Ht).
      apply in_app_iff. right. now left. }
    assert (Hcount : length (List.map evNow (pre ++ [last])) = threshold rule).
    { rewrite length_map, length_app. simpl. lia. }
    unfold observeAll at 2 3. rewrite !fold_left_app. simpl.
    fold (observeAll rule st pre).
    rewrite (observe_trigger rule client _ last Hl);
      rewrite Hhits; change [evNow last] with (List.map evNow [last]);
      rewrite <- List.map_app, Hpruned, Hcount; [|lia].
    simpl. rewrite Hfired, lookup_insert_eq. repeat split; reflexivity.
  - intros st0 t0 rest ev Hw [Hq Hip] Hlate.
    assert (H1 : hitsOf st0 client = t0 :: rest)
      by (unfold hitsOf; now rewrite Hw).
    assert (H2 : hitsOf (withHits st0 client rest) client = rest)
      by (unfold withHits; apply hitsOf_insert).
    unfold observe. rewrite Hq. cbv zeta. rewrite Hip, H1, H2.
    rewrite <- app_comm_cons, (prune_expired _ _ _ _ Hlate).
    unfold withHits. cbn [windows fired].
    rewrite !insert_insert_eq. reflexivity.
Qed.

Lemma detector_threshold_and_window_witness :
  fired (observeAll loginRule idle [loginFailure 0]) = []
  /\ fired (observeAll loginRule idle [loginFailure 0; loginFailure 100])
     = [{| ip := "1.2.3.4"; hits := 2; path := "/login"; timestamp := 100;
           userAgent := "unknown" |}]
  /\ windows (observeAll loginRule idle [loginFailure 0; loginFailure 100])
       !! "1.2.3.4" = Some []
  /\ observe loginRule (withHits idle "1.2.3.4" [0%Z]) (loginFailure 1500)
     = observe loginRule (withHits idle "1.2.3.4" []) (loginFailure 1500).
Proof.
  destruct (detector_threshold_and_window loginRule "1.2.3.4" idle)
    as (Ha & Hb & Hc); [simpl; lia | reflexivity |].
  assert (Hhits : Forall (hitFrom loginRule "1.2.3.4")
                    ([loginFailure 0] ++ [loginFailure 100])).
  { repeat constructor. }
  assert (Hwin : withinWindow (timeWindow loginRule)
                   ([loginFailure 0] ++ [loginFailure 100])).
  { intros e e' [<-|[<-|[]]] [<-|[<-|[]]]; simpl; lia. }
  destruct (Hb [loginFailure 0] (loginFailure 100) Hhits Hwin eq_refl)
    as (_ & Hfire & _ & Hclear).
  split; [|split; [exact Hfire | split; [exact Hclear|]]].
  - apply (Ha [loginFailure 0]).
    + repeat constructor.
    + intros e e' [<-|[]] [<-|[]]; simpl; lia.
    + simpl; lia.
  - apply (Hc (withHits idle "1.2.3.4" [0%Z]) 0%Z [] (loginFailure 1500)).
    + reflexivity.
    + split; reflexivity.
    + simpl; lia.
Defined.

End DetectorClaims.

(** ** Path rewriting and forwarding *)

Section ProxyClaims.
Import Http PathRewrite Proxy.

Lemma applyRules_app (exec : string -> string -> option (nat * nat))
    (pre post : list (string * string)) (p : string) :
  applyRules exec (pre ++ post) p = applyRules exec post (applyRules exec pre p).
Proof.
  revert p. induction pre as [|rule pre IH]; intros p; simpl; [reflexivity|].
  apply IH.
Qed.

(** C2: in object-rule mode the rules run in configuration order and each
    rule is tested against, and substituted into, the value the rules
    before it have produced, not the original path: for any split
    [pre ++ rule :: post] of the list the result is [post] applied to
    what [rule] makes of the output of [pre]. With the single rule that
    maps a leading [/api] to the empty string, [/api/users] becomes
    [/users]; and a second rule can match what the first has written
    although it does not match the original. *)
Theorem rewrite_rules_chain :
  (forall exec pre rule post p,
      rewrite exec (Some (ObjectRules (pre ++ rule :: post))) p
      = applyRules exec post (applyRule exec rule (applyRules exec pre p)))
  /\ (forall exec pattern replacement current,
         applyRule exec (pattern, replacement) current
         = if test exec pattern current
           then replace exec pattern replacement current
           else current)
  /\ rewrite literalExec (Some (ObjectRules [("^/api", "")])) "/api/users"
     = "/users"
  /\ (rewrite literalExec
         (Some (ObjectRules [("^/v1", "/api/v1"); ("^/api", "/internal")]))
         "/v1/users"
       = "/internal/v1/users"
       /\ test literalExec "^/api" "/v1/users" = false).
Proof.
  split; [|split; [|split; [|split]]]; try reflexivity.
  intros exec pre rule post p. simpl. now rewrite applyRules_app.
Qed.

(** C1: the host and port (and scheme) of the outbound request are those
    of the configured Target Descriptor for every inbound request, so any
    two inbound requests, however their headers, query string or body
    differ, are forwarded to the same upstream host and port; and the
    engine's answer depends on the network only through what the target
    host and port answer. *)
Theorem target_fixation
    (exec : string -> string -> option (nat * nat)) (cfg : Config) :
  (forall req,
      outHost (buildOutbound exec cfg req) = host (target cfg)
      /\ outPort (buildOutbound exec cfg req) = port (target cfg)
      /\ outScheme (buildOutbound exec cfg req) = scheme (target cfg))
  /\ (forall req req',
         outHost (buildOutbound exec cfg req) = outHost (buildOutbound exec cfg req')
         /\ outPort (buildOutbound exec cfg req) = outPort (buildOutbound exec cfg req'))
  /\ (forall upstream upstream' req,
         (forall out, outHost out = host (target cfg) ->
                      outPort out = port (target cfg) ->
                      upstream out = upstream' out) ->
         forward exec cfg upstream req = forward exec cfg upstream' req).
Proof.
  split; [|split].
  - intros req. repeat split.
  - intros req req'. split; reflexivity.
  - intros upstream upstream' req Hsame. unfold forward.
    now rewrite (Hsame (buildOutbound exec cfg req) eq_refl eq_refl).
Qed.

Lemma target_fixation_witness :
  (outHost (buildOutbound literalExec upTarget
              {| method := "GET"; url := "/api/test?target=http://evil.com";
                 reqHeaders := {["host" := "evil.com"]}; reqBody := "" |}) = "up"
   /\ outPort (buildOutbound literalExec upTarget
                 {| method := "GET"; url := "/api/test?target=http://evil.com";
                    reqHeaders := {["host" := "evil.com"]}; reqBody := "" |})
      = 9000%Z)
  /\ forward literalExec upTarget (onlyUp (UpResponse 200 ∅ "ok"))
       {| method := "GET"; url := "/api/test";
          reqHeaders := {["x-forwarded-host" := "evil.com"]}; reqBody := "" |}
     = forward literalExec upTarget (fun _ => UpResponse 200 ∅ "ok")
         {| method := "GET"; url := "/api/test";
            reqHeaders := {["x-forwarded-host" := "evil.com"]}; reqBody := "" |}.
Proof.
  destruct (target_fixation literalExec upTarget) as (Hfix & _ & Hnet).
  split.
  - destruct (Hfix {| method := "GET"; url := "/api/test?target=http://evil.com";
                      reqHeaders := {["host" := "evil.com"]}; reqBody := "" |})
      as (Hh & Hp & _).
    split; [exact Hh | exact Hp].
  - apply Hnet. intros out Hh Hp. unfold onlyUp.
    simpl in Hh, Hp. rewrite Hh, Hp. reflexivity.
Defined.

(** C4: whenever the upstream call fails (refused, DNS failure or
    timeout) the engine returns normally with exactly one response to the
    inbound caller, whose status is in the 5xx range and whose body is the
    JSON object with [error] equal to [Proxy Error] and [message] equal
    to the cause. *)
Theorem upstream_failure_response
    (exec : string -> string -> option (nat * nat)) (cfg : Config)
    (upstream : Outbound -> Upstream) (req : Req)
    (cause : Failure) (message : string) :
  upstream (buildOutbound exec cfg req) = UpFailure cause message ->
  exists r,
    forward exec cfg upstream req = Returns [r]
    /\ (500 <= status r < 600)%Z
    /\ field "error" (body r) = Some "Proxy Error"
    /\ field "message" (body r) = Some message.
Proof.
  intros Hup. unfold forward. rewrite Hup.
  exists (errorResponse message). repeat split; simpl; lia.
Qed.

Lemma upstream_failure_response_witness :
  exists r,
    forward literalExec upTarget unreachable
      {| method := "GET"; url := "/api/test"; reqHeaders := ∅; reqBody := "" |}
    = Returns [r]
    /\ (500 <= status r < 600)%Z
    /\ field "error" (body r) = Some "Proxy Error"
    /\ field "message" (body r) = Some "connect ECONNREFUSED".
Proof.
  apply (upstream_failure_response literalExec upTarget unreachable
           {| method := "GET"; url := "/api/test"; reqHeaders := ∅; reqBody := "" |}
           Refused "connect ECONNREFUSED").
  reflexivity.
Defined.

End ProxyClaims.

(** ** Further properties of the CORS plugin *)

Section CorsConstruction.
Import Js Http Cors CorsSpec CorsFrame.

Lemma or_idempotent (a b : JsVal) : Js.or (Js.or a b) b = Js.or a b.
Proof. unfold Js.or. destruct (truthy a) eqn:Ha; [now rewrite Ha|]. now destruct (truthy b). Qed.

(** X1: [createCors] returns a middleware exactly when [methods] and
    [allowedHeaders] are each falsy or a non-empty array and [origin] is
    falsy, a string, a function or an array; the elements of the arrays
    are not inspected. *)
Theorem createCors_succeeds_iff (options : Options) :
  (exists mw, createCors options = Returns mw)
  <-> defaultedOrNonEmptyArray (methods options) = true
      /\ defaultedOrNonEmptyArray (allowedHeaders options) = true
      /\ validOriginShape (origin options) = true.
Proof.
  rewrite createCors_cases. split.
  - intros [mw H].
    destruct (defaultedOrNonEmptyArray (methods options)); [|discriminate].
    destruct (defaultedOrNonEmptyArray (allowedHeaders options)); [|discriminate].
    destruct (validOriginShape (origin options)); [|discriminate].
    repeat split.
  - intros (-> & -> & Ho). rewrite Ho. cbn [negb].
    destruct (makeIsOriginAllowed_valid _ Ho) as [f ->]. eauto.
Qed.

(** X2: the three construction errors are raised in a fixed order: the
    [methods] error whenever [methods] is truthy and not a non-empty
    array, whatever the other options are; the [allowedHeaders] error
    exactly when [methods] passes and [allowedHeaders] does not; the
    origin type error exactly when both pass and the origin is a truthy
    value that is no string, function or array. *)
Theorem createCors_error_order (options : Options) :
  (createCors options = Throws "methods must be a non-empty array"
   <-> defaultedOrNonEmptyArray (methods options) = false)
  /\ (createCors options = Throws "allowedHeaders must be a non-empty array"
      <-> defaultedOrNonEmptyArray (methods options) = true
          /\ defaultedOrNonEmptyArray (allowedHeaders options) = false)
  /\ (createCors options = Throws originTypeError
      <-> defaultedOrNonEmptyArray (methods options) = true
          /\ defaultedOrNonEmptyArray (allowedHeaders options) = true
          /\ validOriginShape (origin options) = false).
Proof.
  rewrite createCors_cases.
  pose proof originTypeError_methods as Hm.
  pose proof originTypeError_allowedHeaders as Hh.
  destruct (defaultedOrNonEmptyArray (methods options));
    destruct (defaultedOrNonEmptyArray (allowedHeaders options));
    destruct (validOriginShape (origin options)) eqn:Ho; cbn [negb];
    try (destruct (makeIsOriginAllowed_valid _ Ho) as [f ->]);
    repeat split; try discriminate; try reflexivity;
    try (intros (? & ?); discriminate);
    try (intros (? & ? & ?); discriminate);
    try (intros [= H]; congruence).
Qed.

(** X3: normalising is idempotent, and [createCors] sees its options only
    through their normal form: the configuration with the defaults filled
    in builds the same middleware, or raises the same error, as the
    options it came from. *)
Theorem createCors_normalize (options : Options) :
  normalize (normalize options) = normalize options
  /\ createCors (normalize options) = createCors options.
Proof.
  assert (Hn : normalize (normalize options) = normalize options).
  { unfold normalize. cbn [origin methods allowedHeaders].
    now rewrite !or_idempotent. }
  split; [exact Hn|].
  unfold createCors, methodsHeaderOf. cbv zeta. now rewrite Hn.
Qed.

(** X13: when [methods], respectively [allowedHeaders], is falsy, the
    header value computed at construction is that of the documented
    default list. *)
Theorem createCors_default_headers (options : Options) :
  (truthy (methods options) = false ->
   methodsHeaderOf options = "GET, POST, PUT, DELETE, PATCH, HEAD")
  /\ (truthy (allowedHeaders options) = false ->
      headersHeaderOf options = "Content-Type, Authorization").
Proof.
  split; intros H; unfold methodsHeaderOf, headersHeaderOf, normalize;
    cbn [methods allowedHeaders]; now rewrite (or_falsy _ _ H).
Qed.

Lemma createCors_default_headers_witness :
  methodsHeaderOf {| origin := JStr "https://example.com";
                     methods := JNull;
                     allowedHeaders := JUndefined |}
  = "GET, POST, PUT, DELETE, PATCH, HEAD"
  /\ headersHeaderOf {| origin := JStr "https://example.com";
                        methods := JNull;
                        allowedHeaders := JUndefined |}
     = "Content-Type, Authorization".
Proof.
  destruct (createCors_default_headers
              {| origin := JStr "https://example.com";
                 methods := JNull;
                 allowedHeaders := JUndefined |}) as [Hm Hh].
  split; [apply Hm | apply Hh]; reflexivity.
Defined.

End CorsConstruction.

Section CorsValidator.
Import Js Http Cors CorsSpec CorsFrame.

Lemma setHas_In (l : list JsVal) (o : string) :
  setHas l o = true <-> In (JStr o) l.
Proof.
  unfold setHas. rewrite existsb_exists. split.
  - intros (e & He & Heq). destruct e; try discriminate.
    cbn in Heq. apply String.eqb_eq in Heq. now subst.
  - intros H. exists (JStr o). split; [exact H|]. cbn. apply String.eqb_refl.
Qed.

(** For a rule that is no function the validator is a total boolean test. *)
Lemma validator_total (options : Options) (f : string -> Completion JsVal) :
  String.eqb (typeof (origin options)) "function" = false ->
  makeIsOriginAllowed (normalize options) = Returns f ->
  exists b : string -> bool, forall o, f o = Returns (JBool (b o)).
Proof.
  intros Hfun. unfold makeIsOriginAllowed.
  assert (Hn : String.eqb (typeof (origin (normalize options))) "function" = false).
  { unfold normalize, Js.or. cbn [origin].
    destruct (truthy (origin options)); [exact Hfun | reflexivity]. }
  rewrite Hn.
  destruct (strictEqStr (origin (normalize options)) "*").
  - intros [= <-]. now exists (fun _ => true).
  - destruct (String.eqb (typeof (origin (normalize options))) "string").
    + intros [= <-]. now eexists (fun o => _).
    + destruct (isArray (origin (normalize options))); [|discriminate].
      intros [= <-]. now eexists (fun o => _).
Qed.

(** X4: a single-origin rule (a string other than the wildcard) allows a
    request origin exactly when it is that very string, compared as a
    whole and case-sensitively, and does not allow any other; such a rule
    is not the wildcard. *)
Theorem cors_string_rule_exact (options : Options) (s o : string) :
  origin options = JStr s ->
  s <> "" ->
  s <> "*" ->
  (allows options o <-> o = s)
  /\ (rejects options o <-> o <> s)
  /\ wildcard options = false.
Proof.
  intros Ho Hne Hw.
  assert (Hcfg : origin (normalize options) = JStr s).
  { unfold normalize, Js.or. cbn [origin]. rewrite Ho. cbn.
    now rewrite (proj2 (String.eqb_neq _ _) Hne). }
  assert (Hwf : strictEqStr (JStr s) "*" = false)
    by (cbn; now apply String.eqb_neq).
  assert (Hf : makeIsOriginAllowed (normalize options)
               = Returns (fun requestOrigin =>
                            Returns (JBool (strictEqStr (JStr s) requestOrigin)))).
  { unfold makeIsOriginAllowed. rewrite Hcfg, Hwf. reflexivity. }
  split; [|split].
  - split.
    + intros (f & v & Hf' & Hv & Ht). rewrite Hf in Hf'. injection Hf' as <-.
      injection Hv as <-. cbn in Ht. apply String.eqb_eq in Ht. now subst.
    + intros ->. eexists _, _. split; [exact Hf|]. split; [reflexivity|].
      cbn. apply String.eqb_refl.
  - split.
    + intros (f & v & Hf' & Hv & Ht). rewrite Hf in Hf'. injection Hf' as <-.
      injection Hv as <-. cbn in Ht. apply String.eqb_neq in Ht. congruence.
    + intros Hne'. eexists _, _. split; [exact Hf|]. split; [reflexivity|].
      cbn. apply String.eqb_neq. congruence.
  - unfold wildcard. now rewrite Hcfg.
Qed.

Lemma cors_string_rule_exact_witness :
  (allows singleOrigin "https://EXAMPLE.com" <-> "https://EXAMPLE.com" = "https://example.com")
  /\ (rejects singleOrigin "https://EXAMPLE.com" <-> "https://EXAMPLE.com" <> "https://example.com")
  /\ wildcard singleOrigin = false.
Proof.
  apply (cors_string_rule_exact singleOrigin "https://example.com"
           "https://EXAMPLE.com"); [reflexivity | discriminate | discriminate].
Defined.

(** X5: an origin list allows a request origin exactly when the list
    holds that very string as an element, and does not allow it
    otherwise: elements that are no strings never match, the empty list
    allows nothing, and a list is never the wildcard, even one that holds
    the string [*]. *)
Theorem cors_array_rule_membership (options : Options) (l : list JsVal)
    (o : string) :
  origin options = JArr l ->
  (allows options o <-> In (JStr o) l)
  /\ (rejects options o <-> ~ In (JStr o) l)
  /\ wildcard options = false.
Proof.
  intros Ho.
  assert (Hcfg : origin (normalize options) = JArr l).
  { unfold normalize, Js.or. cbn [origin]. now rewrite Ho. }
  assert (Hf : makeIsOriginAllowed (normalize options)
               = Returns (fun requestOrigin =>
                            Returns (JBool (setHas l requestOrigin)))).
  { unfold makeIsOriginAllowed. rewrite Hcfg. reflexivity. }
  split; [|split].
  - split.
    + intros (f & v & Hf' & Hv & Ht). rewrite Hf in Hf'. injection Hf' as <-.
      injection Hv as <-. cbn in Ht. now apply setHas_In.
    + intros Hin. eexists _, _. split; [exact Hf|]. split; [reflexivity|].
      cbn. now apply setHas_In.
  - split.
    + intros (f & v & Hf' & Hv & Ht). rewrite Hf in Hf'. injection Hf' as <-.
      injection Hv as <-. cbn in Ht. intros Hin.
      apply setHas_In in Hin. congruence.
    + intros Hnin. eexists _, _. split; [exact Hf|]. split; [reflexivity|].
      cbn. destruct (setHas l o) eqn:Hs; [|reflexivity].
      apply setHas_In in Hs. contradiction.
  - unfold wildcard. now rewrite Hcfg.
Qed.

Lemma cors_array_rule_membership_witness :
  (allows {| origin := JArr [JStr "*"; JNum 1 eq_refl];
             methods := JUndefined; allowedHeaders := JUndefined |}
          "https://example.com"
   <-> In (JStr "https://example.com") [JStr "*"; JNum 1 eq_refl])
  /\ (rejects {| origin := JArr [JStr "*"; JNum 1 eq_refl];
                 methods := JUndefined; allowedHeaders := JUndefined |}
              "https://example.com"
      <-> ~ In (JStr "https://example.com") [JStr "*"; JNum 1 eq_refl])
  /\ wildcard {| origin := JArr [JStr "*"; JNum 1 eq_refl];
                 methods := JUndefined; allowedHeaders := JUndefined |} = false.
Proof.
  apply (cors_array_rule_membership
           {| origin := JArr [JStr "*"; JNum 1 eq_refl];
              methods := JUndefined; allowedHeaders := JUndefined |}
           [JStr "*"; JNum 1 eq_refl] "https://example.com").
  reflexivity.
Defined.

End CorsValidator.

Section CorsRequests.
Import Js Http Cors CorsSpec CorsFrame CorsResponses.

Lemma sameExceptCors_refl (res : Res) : sameExceptCors res res.
Proof. split; [reflexivity | intros k _; reflexivity]. Qed.

Lemma passedOn_refl (res : Res) : passedOn res res.
Proof. repeat split. Qed.

(** The three headers change nothing but themselves. *)
Lemma corsHeaders_frame (a m h : string) (res : Res) :
  sameExceptCors res (corsHeaders a m h res)
  /\ passedOn res (corsHeaders a m h res).
Proof.
  unfold corsHeaders, putHeader, sameExceptCors, passedOn, corsHeader.
  cbn [resHeaders resBody statusCode headersSent finished].
  rewrite lower_ACAO, lower_ACAM, lower_ACAH.
  repeat split. intros k Hk.
  rewrite !lookup_insert_ne; [reflexivity | | | ]; intros <-; tauto.
Qed.

(** Answering a preflight changes none of the other headers, nor the body. *)
Lemma allowedAnswer_frame (a m h : string) (res : Res) :
  sameExceptCors res (allowedAnswer a m h res).
Proof.
  destruct (corsHeaders_frame a m h res) as [[Hb Hk] _].
  split; [exact Hb | exact Hk].
Qed.

Lemma preflightAnswer_frame (m h : string) (res : Res) :
  sameExceptCors res (preflightAnswer m h res).
Proof.
  unfold preflightAnswer, putHeader, sameExceptCors, corsHeader.
  cbn [end_ sendHead resHeaders resBody].
  rewrite lower_ACAM, lower_ACAH.
  split; [reflexivity|]. intros k Hk.
  rewrite !lookup_insert_ne; [reflexivity | | ]; intros <-; tauto.
Qed.

(** Every outcome of the middleware. *)
Lemma middleware_outcomes (config : Options) (f : string -> Completion JsVal)
    (mh hh : string) (req : Req) (res : Res) (next : Next) :
  (exists e o,
      reqHeaders req !! "origin" = Some o /\ o <> "" /\ f o = Throws e
      /\ middleware config f mh hh req res next = Throws e)
  \/ (exists e,
         nodeError e
         /\ middleware config f mh hh req res next = Throws e
         /\ (headersSent res = true
             \/ validHeaderValue mh = false
             \/ validHeaderValue hh = false
             \/ exists o,
                 reqHeaders req !! "origin" = Some o
                 /\ validHeaderValue
                      (if strictEqStr (origin config) "*" then "*" else o)
                    = false))
  \/ (exists res',
         sameExceptCors res res' /\ passedOn res res'
         /\ middleware config f mh hh req res next = next res')
  \/ (exists res',
         sameExceptCors res res'
         /\ method req = "OPTIONS"
         /\ middleware config f mh hh req res next = Returns res'
         /\ statusCode res' = 204%Z
         /\ finished res' = true).
Proof.
  unfold nodeError.
  destruct (noOrigin (reqHeaders req !! "origin")) eqn:Hno.
  - rewrite (middleware_without_origin _ _ _ _ _ _ _ Hno).
    destruct (String.eqb (method req) "OPTIONS") eqn:Hm.
    + rewrite preflight_path.
      destruct (headersSent res) eqn:Hs; [right; left; eauto 8|].
      destruct (validHeaderValue mh) eqn:Hvm; [|right; left; eauto 8].
      destruct (validHeaderValue hh) eqn:Hvh; [|right; left; eauto 8].
      right; right; right. exists (preflightAnswer mh hh res).
      split; [apply preflightAnswer_frame|].
      split; [now apply String.eqb_eq|]. repeat split.
    + right; right; left. exists res.
      split; [apply sameExceptCors_refl|]. split; [apply passedOn_refl|].
      reflexivity.
  - destruct (noOrigin_false _ Hno) as (o & Ho & Hne).
    destruct (f o) as [v|e] eqn:Hv.
    + rewrite (middleware_with_origin _ _ _ _ _ _ _ _ _ Ho Hne Hv).
      destruct (truthy v).
      * destruct (headersSent res) eqn:Hs; [right; left; eauto 8|].
        set (a := if strictEqStr (origin config) "*" then "*" else o).
        destruct (validHeaderValue a) eqn:Hva;
          [|right; left; eexists; split; [right; reflexivity|];
            split; [reflexivity|]; right; right; right; eauto].
        destruct (validHeaderValue mh) eqn:Hvm; [|right; left; eauto 8].
        destruct (validHeaderValue hh) eqn:Hvh; [|right; left; eauto 8].
        cbn [andb].
        destruct (String.eqb (method req) "OPTIONS") eqn:Hm.
        -- right; right; right. eexists.
           split; [apply allowedAnswer_frame|].
           split; [now apply String.eqb_eq|]. repeat split.
        -- right; right; left. eexists.
           split; [apply corsHeaders_frame|].
           split; [apply corsHeaders_frame | reflexivity].
      * right; right; left. exists res.
        split; [apply sameExceptCors_refl|]. split; [apply passedOn_refl|].
        reflexivity.
    + left. exists e, o. repeat split; try assumption.
      now apply middleware_validator_throws with (o := o).
Qed.

(** X6: a predicate rule is only ever called on a non-empty origin: two
    predicates that agree on every non-empty string build middlewares
    that behave alike on every request, so what a predicate does on the
    empty origin (a branch for same-origin requests, an exception) never
    shows. *)
Theorem cors_predicate_never_sees_empty_origin
    (src src' : string) (f g : string -> Completion JsVal) (m h : JsVal)
    (mw mw' : Middleware) (req : Req) (res : Res) (next : Next) :
  (forall o, o <> "" -> f o = g o) ->
  createCors {| origin := JFun src f; methods := m; allowedHeaders := h |}
  = Returns mw ->
  createCors {| origin := JFun src' g; methods := m; allowedHeaders := h |}
  = Returns mw' ->
  mw req res next = mw' req res next.
Proof.
  intros Hfg Hc Hc'.
  destruct (createCors_Returns _ _ Hc) as (_ & _ & f0 & Hf0 & ->).
  destruct (createCors_Returns _ _ Hc') as (_ & _ & g0 & Hg0 & ->).
  change (Returns f = Returns f0) in Hf0. injection Hf0 as <-.
  change (Returns g = Returns g0) in Hg0. injection Hg0 as <-.
  destruct (noOrigin (reqHeaders req !! "origin")) eqn:Hno.
  - now rewrite !(middleware_without_origin _ _ _ _ _ _ _ Hno).
  - destruct (noOrigin_false _ Hno) as (o & Ho & Hne).
    pose proof (Hfg o Hne) as Hgo.
    destruct (f o) as [v|e] eqn:Hv.
    + rewrite (middleware_with_origin _ _ _ _ _ _ _ _ _ Ho Hne Hv).
      symmetry in Hgo.
      now rewrite (middleware_with_origin _ _ _ _ _ _ _ _ _ Ho Hne Hgo).
    + symmetry in Hgo.
      now rewrite (middleware_validator_throws _ _ _ _ _ _ _ _ _ Ho Hne Hv),
        (middleware_validator_throws _ _ _ _ _ _ _ _ _ Ho Hne Hgo).
Qed.

Lemma cors_predicate_never_sees_empty_origin_witness :
  middlewareOf (withPredicate "allowLocalhost" localhostOnly)
    (request "OPTIONS" {["origin" := ""]}) freshRes observeNext
  = middlewareOf (withPredicate "allowLocalhostOrSameOrigin" localhostOrEmpty)
      (request "OPTIONS" {["origin" := ""]}) freshRes observeNext.
Proof.
  apply (cors_predicate_never_sees_empty_origin
           "allowLocalhost" "allowLocalhostOrSameOrigin"
           localhostOnly localhostOrEmpty
           (JArr [JStr "GET"; JStr "POST"]) (JArr [JStr "Content-Type"])).
  - intros o Ho. unfold localhostOnly, localhostOrEmpty.
    now rewrite (proj2 (String.eqb_neq _ _) Ho).
  - reflexivity.
  - reflexivity.
Defined.

(** X7: with an origin rule that is no function (wildcard, string or
    list), on a response whose head is not yet written and when the two
    joined lists and the request's Origin are legal header values, the
    middleware itself never throws: an exception that leaves it was
    thrown by the continuation. *)
Theorem cors_static_rule_never_throws
    (options : Options) (mw : Middleware) (req : Req) (res : Res)
    (next : Next) (e : string) :
  String.eqb (typeof (origin options)) "function" = false ->
  createCors options = Returns mw ->
  headersSent res = false ->
  validHeaderValue (Js.join (methods (normalize options)) ", ") = true ->
  validHeaderValue (Js.join (allowedHeaders (normalize options)) ", ") = true ->
  (forall o, reqHeaders req !! "origin" = Some o -> validHeaderValue o = true) ->
  mw req res next = Throws e ->
  exists r, next r = Throws e.
Proof.
  intros Hfun Hc Hs Hvm Hvh Hvo Hthrow.
  destruct (createCors_Returns _ _ Hc) as (_ & _ & f & Hf & ->).
  destruct (validator_total _ _ Hfun Hf) as [b Hb].
  destruct (middleware_outcomes (normalize options) f (methodsHeaderOf options)
              (headersHeaderOf options) req res next)
    as [(e' & o & _ & _ & Ho & _)
       |[(e' & _ & _ & Hwhy)
        |[(res' & _ & _ & Hnext)|(res' & _ & _ & Hret & _)]]].
  - rewrite Hb in Ho. discriminate.
  - exfalso. unfold methodsHeaderOf, headersHeaderOf in Hwhy.
    destruct Hwhy as [H|[H|[H|(o & Ho & H)]]]; try congruence.
    destruct (strictEqStr (origin (normalize options)) "*");
      [discriminate H | rewrite (Hvo o Ho) in H; discriminate H].
  - exists res'. now rewrite <- Hnext.
  - rewrite Hret in Hthrow. discriminate.
Qed.

Lemma cors_static_rule_never_throws_witness :
  middlewareOf originList
    (request "GET" {["origin" := "https://example.com"]}) freshRes nextForbidden
  = Throws "next was called"
  /\ exists r, nextForbidden r = Throws "next was called".
Proof.
  split; [reflexivity|].
  apply (cors_static_rule_never_throws originList (middlewareOf originList)
           (request "GET" {["origin" := "https://example.com"]})
           freshRes nextForbidden "next was called"); try reflexivity.
  intros o Ho. change (Some "https://example.com" = Some o) in Ho.
  injection Ho as <-. reflexivity.
Defined.

(** X8: whatever the request, the middleware writes no body and touches
    no header other than the three CORS headers, and it has four
    outcomes. The origin validator threw on the request's non-empty
    origin and the exception leaves the middleware; or the response
    object refused a call (its head was already written, or a value to
    write holds an illegal character) and its error leaves the
    middleware; or the response is handed to the continuation with its
    status and flags as they were; or the request is an OPTIONS request
    and the response is ended with status 204 without the continuation. *)
Theorem cors_frame
    (options : Options) (mw : Middleware) (req : Req) (res : Res)
    (next : Next) :
  createCors options = Returns mw ->
  (exists e f o,
      mw req res next = Throws e
      /\ makeIsOriginAllowed (normalize options) = Returns f
      /\ reqHeaders req !! "origin" = Some o
      /\ f o = Throws e)
  \/ (exists e,
         mw req res next = Throws e
         /\ nodeError e
         /\ refused options req res)
  \/ (exists res',
         sameExceptCors res res'
         /\ passedOn res res'
         /\ mw req res next = next res')
  \/ (exists res',
         sameExceptCors res res'
         /\ method req = "OPTIONS"
         /\ mw req res next = Returns res'
         /\ statusCode res' = 204%Z
         /\ finished res' = true).
Proof.
  intros Hc.
  destruct (createCors_Returns _ _ Hc) as (_ & _ & f & Hf & ->).
  destruct (middleware_outcomes (normalize options) f (methodsHeaderOf options)
              (headersHeaderOf options) req res next)
    as [(e & o & Ho & _ & Hv & Hm)
       |[(e & He & Hm & Hwhy)|[H|H]]].
  - left. exists e, f, o. auto.
  - right; left. exists e. split; [exact Hm|]. split; [exact He|].
    exact Hwhy.
  - right; right; left. exact H.
  - right; right; right. exact H.
Qed.

Lemma cors_frame_witness :
  exists res',
    sameExceptCors freshRes res'
    /\ passedOn freshRes res'
    /\ middlewareOf singleOrigin
         (request "GET" {["origin" := "https://example.com"; "cookie" := "sid=1"]})
         freshRes observeNext
       = observeNext res'.
Proof.
  assert (Hrun : middlewareOf singleOrigin
                   (request "GET" {["origin" := "https://example.com";
                                    "cookie" := "sid=1"]})
                   freshRes observeNext
                 = Returns (corsHeaders "https://example.com" "GET, POST"
                              "Content-Type" freshRes)) by reflexivity.
  destruct (cors_frame singleOrigin (middlewareOf singleOrigin)
              (request "GET" {["origin" := "https://example.com"; "cookie" := "sid=1"]})
              freshRes observeNext eq_refl)
    as [(e & f & o & Hm & _)
       |[(e & Hm & _)|[H|(res' & _ & Hopt & _)]]].
  - rewrite Hrun in Hm. discriminate Hm.
  - rewrite Hrun in Hm. discriminate Hm.
  - exact H.
  - discriminate Hopt.
Defined.

End CorsRequests.

Section CorsOutcomes.
Import Js Http Cors CorsSpec CorsFrame CorsResponses.

(** X9: an OPTIONS request with a non-empty allowed origin, on a
    response whose head is not yet written and when the value for
    Access-Control-Allow-Origin and the two joined lists are legal header
    values, is answered by the middleware itself: status 204, response
    ended, nothing written to the body, the three CORS headers set over
    the headers the response had, and the same outcome for every
    continuation, which is therefore not invoked. *)
Theorem cors_allowed_preflight_short_circuits
    (options : Options) (mw : Middleware) (req : Req) (res : Res) (o : string) :
  createCors options = Returns mw ->
  reqHeaders req !! "origin" = Some o ->
  o <> "" ->
  allows options o ->
  method req = "OPTIONS" ->
  headersSent res = false ->
  validHeaderValue (if wildcard options then "*" else o) = true ->
  validHeaderValue (Js.join (methods (normalize options)) ", ") = true ->
  validHeaderValue (Js.join (allowedHeaders (normalize options)) ", ") = true ->
  exists res',
    (forall next : Next, mw req res next = Returns res')
    /\ statusCode res' = 204%Z
    /\ finished res' = true
    /\ headersSent res' = true
    /\ resBody res' = resBody res
    /\ resHeaders res' =
       <[ACAH := Js.join (allowedHeaders (normalize options)) ", "]>
         (<[ACAM := Js.join (methods (normalize options)) ", "]>
            (<[ACAO := if wildcard options then "*" else o]> (resHeaders res))).
Proof.
  intros Hc Ho Hne (f & v & Hf & Hv & Ht) Hm Hs Hva Hvm Hvh.
  destruct (createCors_Returns _ _ Hc) as (_ & _ & f' & Hf' & ->).
  rewrite Hf in Hf'. injection Hf' as <-.
  eexists. split.
  - intros next.
    rewrite (middleware_with_origin _ _ _ _ _ _ _ _ _ Ho Hne Hv), Ht, Hs, Hm.
    fold (wildcard options). unfold methodsHeaderOf, headersHeaderOf.
    rewrite Hva, Hvm, Hvh. reflexivity.
  - destruct (three_headers (if wildcard options then "*" else o)
                (Js.join (methods (normalize options)) ", ")
                (Js.join (allowedHeaders (normalize options)) ", ") res)
      as (_ & _ & _ & Hall).
    repeat split; exact Hall.
Qed.

Lemma cors_allowed_preflight_short_circuits_witness :
  exists res',
    (forall next : Next,
        middlewareOf originList
          (request "OPTIONS" {["origin" := "https://app.example.com"]})
          freshRes next = Returns res')
    /\ statusCode res' = 204%Z
    /\ resBody res' = ""
    /\ resHeaders res' !! ACAO = Some "https://app.example.com"
    /\ resHeaders res' !! ACAM = Some "GET, POST".
Proof.
  destruct (cors_allowed_preflight_short_circuits originList
              (middlewareOf originList)
              (request "OPTIONS" {["origin" := "https://app.example.com"]})
              freshRes "https://app.example.com")
    as (res' & Hn & Hs & _ & _ & Hb & Hh).
  - reflexivity.
  - reflexivity.
  - discriminate.
  - eexists _, _. repeat split; reflexivity.
  - reflexivity.
  - reflexivity.
  - reflexivity.
  - reflexivity.
  - reflexivity.
  - exists res'. rewrite Hh. repeat split; try assumption; reflexivity.
Defined.

(** X10: a request without Origin header (or with an empty one) whose
    method is not exactly OPTIONS goes to the continuation with the
    response untouched, whatever the origin rule is; the rule is not
    consulted. *)
Theorem cors_same_origin_passes_through
    (options : Options) (mw : Middleware) (req : Req) (res : Res) (next : Next) :
  createCors options = Returns mw ->
  noOrigin (reqHeaders req !! "origin") = true ->
  method req <> "OPTIONS" ->
  mw req res next = next res.
Proof.
  intros Hc Hno Hm.
  destruct (createCors_Returns _ _ Hc) as (_ & _ & f & _ & ->).
  rewrite (middleware_without_origin _ _ _ _ _ _ _ Hno).
  now rewrite (proj2 (String.eqb_neq _ _) Hm).
Qed.

Lemma cors_same_origin_passes_through_witness :
  middlewareOf (withPredicate "throws" (fun _ => Throws "boom"))
    (request "options" ∅) freshRes observeNext
  = observeNext freshRes.
Proof.
  apply (cors_same_origin_passes_through
           (withPredicate "throws" (fun _ => Throws "boom"))
           (middlewareOf (withPredicate "throws" (fun _ => Throws "boom")))
           (request "options" ∅) freshRes observeNext).
  - reflexivity.
  - reflexivity.
  - discriminate.
Defined.

(** X11: of the request the middleware reads the method and the Origin
    header and nothing else: two requests that agree on both get the same
    treatment, whatever their URL, body and other headers (among them
    Access-Control-Request-Method and Access-Control-Request-Headers,
    which a preflight is not checked against). *)
Theorem cors_reads_method_and_origin_only
    (options : Options) (mw : Middleware) (req req' : Req) (res : Res)
    (next : Next) :
  createCors options = Returns mw ->
  method req = method req' ->
  reqHeaders req !! "origin" = reqHeaders req' !! "origin" ->
  mw req res next = mw req' res next.
Proof.
  intros Hc Hm Ho.
  destruct (createCors_Returns _ _ Hc) as (_ & _ & f & _ & ->).
  unfold middleware. now rewrite Hm, Ho.
Qed.

Lemma cors_reads_method_and_origin_only_witness :
  middlewareOf singleOrigin
    {| method := "OPTIONS"; url := "/a";
       reqHeaders := {["origin" := "https://example.com";
                       "access-control-request-method" := "DELETE"]};
       reqBody := "" |} freshRes observeNext
  = middlewareOf singleOrigin
      {| method := "OPTIONS"; url := "/b?x=1";
         reqHeaders := {["origin" := "https://example.com"]};
         reqBody := "payload" |} freshRes observeNext.
Proof.
  apply (cors_reads_method_and_origin_only singleOrigin (middlewareOf singleOrigin));
    reflexivity.
Defined.

(** X12: the middleware grants Access-Control-Allow-Origin to allowed
    origins only: if the response it hands on or returns has another
    Access-Control-Allow-Origin entry than the response it was given,
    then the request carried a non-empty Origin that the rule allows, and
    the entry is [*] under the wildcard and that origin otherwise. *)
Theorem cors_allow_origin_only_when_allowed
    (options : Options) (mw : Middleware) (req : Req) (res res' : Res) :
  createCors options = Returns mw ->
  mw req res observeNext = Returns res' ->
  resHeaders res' !! ACAO <> resHeaders res !! ACAO ->
  exists o,
    reqHeaders req !! "origin" = Some o
    /\ o <> ""
    /\ allows options o
    /\ resHeaders res' !! ACAO = Some (if wildcard options then "*" else o).
Proof.
  intros Hc Hres Hdiff.
  destruct (createCors_Returns _ _ Hc) as (_ & _ & f & Hf & ->).
  destruct (noOrigin (reqHeaders req !! "origin")) eqn:Hno.
  - exfalso. apply Hdiff.
    rewrite (middleware_without_origin _ _ _ _ _ _ _ Hno) in Hres.
    destruct (String.eqb (method req) "OPTIONS");
      [|now injection Hres as <-].
    rewrite preflight_path in Hres.
    destruct (headersSent res); [discriminate|].
    destruct (_ && _); [|discriminate]. injection Hres as <-.
    unfold preflightAnswer. cbn [end_ sendHead putHeader resHeaders].
    rewrite lower_ACAM, lower_ACAH.
    pose proof ACAO_ACAM. pose proof ACAO_ACAH.
    now rewrite !lookup_insert_ne by congruence.
  - destruct (noOrigin_false _ Hno) as (o & Ho & Hne).
    destruct (f o) as [v|e] eqn:Hv.
    + rewrite (middleware_with_origin _ _ _ _ _ _ _ _ _ Ho Hne Hv) in Hres.
      destruct (truthy v) eqn:Ht.
      * exists o. split; [exact Ho|]. split; [exact Hne|].
        split; [exists f, v; auto|].
        fold (wildcard options) in Hres.
        destruct (headersSent res); [discriminate|].
        destruct (_ && _); [|discriminate].
        destruct (three_headers (if wildcard options then "*" else o)
                    (methodsHeaderOf options) (headersHeaderOf options) res)
          as (Ha & _).
        destruct (String.eqb (method req) "OPTIONS"); injection Hres as <-;
          exact Ha.
      * exfalso. apply Hdiff. now injection Hres as <-.
    + rewrite (middleware_validator_throws _ _ _ _ _ _ _ _ _ Ho Hne Hv) in Hres.
      discriminate.
Qed.

Lemma cors_allow_origin_only_when_allowed_witness :
  exists o,
    reqHeaders (request "GET" {["origin" := "https://example.com"]}) !! "origin"
    = Some o
    /\ o <> ""
    /\ allows singleOrigin o
    /\ resHeaders
         (corsHeaders "https://example.com" "GET, POST" "Content-Type" freshRes)
       !! ACAO
       = Some (if wildcard singleOrigin then "*" else o).
Proof.
  apply (cors_allow_origin_only_when_allowed singleOrigin
           (middlewareOf singleOrigin)
           (request "GET" {["origin" := "https://example.com"]}) freshRes).
  - reflexivity.
  - reflexivity.
  - discriminate.
Defined.

End CorsOutcomes.
